(** * CodeLensAgent: rule-based analysis and scoring engine

    A shallow embedding of [src/server/services/codeLensAgent.py].

    Conventions of the embedding.
    - A Python [str] is a [list ascii]; the texts covered are the ASCII ones
      (code points below 128), on which [str.lower], [str.strip],
      [str.isspace] and the character classes of [re] are the functions
      written below.
    - A Python [int] is a [Z]; [len] is [Z.of_nat (length _)].
    - A Python [float] obtained by true division is an exact rational [Q];
      [round(x, 1)] is rounding to one decimal, ties to even.
    - [re] patterns are terms of [regex], run by a backtracking matcher with
      the priorities of Python's engine (leftmost start, alternatives left to
      right, greedy or lazy repetition). *)

From Stdlib Require Import Ascii String DecimalString.
From Stdlib Require Import List ZArith QArith Qround Lia Lqa Bool Arith Sorted.
Import ListNotations.

Local Open Scope Z_scope.

(** ** Python strings *)

Definition str := list ascii.

Definition s2l (s : string) : str := list_ascii_of_string s.

Definition len {A : Type} (l : list A) : Z := Z.of_nat (length l).

Definition code (c : ascii) : nat := nat_of_ascii c.

Definition is_nl (c : ascii) : bool := (code c =? 10)%nat.

(** [str.isspace] on one ASCII character; also the class [\s] of [re]. *)
Definition isspace (c : ascii) : bool :=
  let n := code c in
  ((9 <=? n) && (n <=? 13) || (28 <=? n) && (n <=? 32))%nat.

Definition isdigit (c : ascii) : bool :=
  let n := code c in ((48 <=? n) && (n <=? 57))%nat.

Definition isupper (c : ascii) : bool :=
  let n := code c in ((65 <=? n) && (n <=? 90))%nat.

Definition islower (c : ascii) : bool :=
  let n := code c in ((97 <=? n) && (n <=? 122))%nat.

(** The class [\w] of [re]: alphanumeric or underscore. *)
Definition isword (c : ascii) : bool :=
  isdigit c || isupper c || islower c || (code c =? 95)%nat.

Definition lower_char (c : ascii) : ascii :=
  if isupper c then ascii_of_nat (code c + 32) else c.

(** [s.lower()] *)
Definition lower (s : str) : str := map lower_char s.

(** [s.split(sep)] for a one-character separator: always at least one
    piece. *)
Fixpoint split_by (sep : ascii -> bool) (s : str) : list str :=
  match s with
  | [] => [[]]
  | c :: t =>
      if sep c then [] :: split_by sep t
      else match split_by sep t with
           | [] => [[c]]
           | l :: ls => (c :: l) :: ls
           end
  end.

(** [s.split('\n')] *)
Definition split_nl (s : str) : list str := split_by is_nl s.

(** [s.lstrip()], [s.rstrip()], [s.strip()] *)
Fixpoint lstrip (s : str) : str :=
  match s with
  | [] => []
  | c :: t => if isspace c then lstrip t else s
  end.

Definition rstrip (s : str) : str := rev (lstrip (rev s)).

Definition strip (s : str) : str := lstrip (rstrip s).

(** [s.startswith(p)] *)
Fixpoint startswith (s p : str) : bool :=
  match p, s with
  | [], _ => true
  | _ :: _, [] => false
  | a :: p', b :: s' => Ascii.eqb a b && startswith s' p'
  end.

(** [p in s] for strings: [p] occurs as a contiguous block of [s]. *)
Fixpoint str_in (p s : str) : bool :=
  startswith s p ||
  match s with
  | [] => false
  | _ :: t => str_in p t
  end.

Fixpoint str_eqb (a b : str) : bool :=
  match a, b with
  | [], [] => true
  | x :: a', y :: b' => Ascii.eqb x y && str_eqb a' b'
  | _, _ => false
  end.

(** [l.count(x)] for a list of strings. *)
Definition list_count (x : str) (l : list str) : Z :=
  len (filter (str_eqb x) l).

(** [s.count('\n')] *)
Definition count_nl (s : str) : nat := length (filter is_nl s).

(** [s[a:b]] for [0 <= a <= b]. *)
Definition slice (s : str) (a b : nat) : str := firstn (b - a) (skipn a s).

(** A truthy string is a non-empty one. *)
Definition truthy (s : str) : bool :=
  match s with [] => false | _ :: _ => true end.

(** ** Regular expressions of [re] *)

(** The constructs the patterns of the program use: the empty pattern, one
    character of a class, the word boundary [\b], sequence, alternative
    (left first), and [r{lo,}] either greedy or lazy ([*] and [+] are
    [{0,}] and [{1,}]).  No pattern of the program uses [^] or [$], so
    [re.MULTILINE] changes nothing. *)
Inductive regex : Type :=
| Eps
| Chr (p : ascii -> bool)
| Bnd
| Seq (r1 r2 : regex)
| Alt (r1 r2 : regex)
| Rep (lo : nat) (greedy : bool) (r : regex).

(** A position in the scanned text: its offset, the character before it and
    the text from there on. *)
Record cursor : Type := Cursor {
  pos : nat;
  prev : option ascii;
  rest : str
}.

Definition start_of (s : str) : cursor := Cursor 0 None s.

Definition word_before (c : cursor) : bool :=
  match prev c with Some a => isword a | None => false end.

Definition word_after (c : cursor) : bool :=
  match rest c with a :: _ => isword a | [] => false end.

(** [\b] holds where exactly one side is a word character. *)
Definition at_boundary (c : cursor) : bool :=
  xorb (word_before c) (word_after c).

Section Matcher.
Context {A : Type}.

Definition cont := cursor -> option A.

(** The mandatory iterations of [r{lo,}]. *)
Fixpoint rep_min (body : cursor -> cont -> option A) (n : nat)
         (c : cursor) (k : cont) : option A :=
  match n with
  | O => k c
  | S n' => body c (fun c' => rep_min body n' c' k)
  end.

(** The optional iterations: greedy tries one more iteration first, lazy
    tries the rest of the pattern first.  An iteration that consumes
    nothing ends the loop, as in the engine. *)
Fixpoint rep_loop (body : cursor -> cont -> option A) (greedy : bool)
         (fuel : nat) (c : cursor) (k : cont) : option A :=
  match fuel with
  | O => k c
  | S f =>
      if greedy then
        match body c (fun c' =>
                if (pos c <? pos c')%nat
                then rep_loop body greedy f c' k else None) with
        | Some x => Some x
        | None => k c
        end
      else
        match k c with
        | Some x => Some x
        | None =>
            body c (fun c' =>
                if (pos c <? pos c')%nat
                then rep_loop body greedy f c' k else None)
        end
  end.

Fixpoint rmatch (r : regex) (c : cursor) (k : cont) {struct r} : option A :=
  match r with
  | Eps => k c
  | Chr p =>
      match rest c with
      | [] => None
      | a :: t => if p a then k (Cursor (S (pos c)) (Some a) t) else None
      end
  | Bnd => if at_boundary c then k c else None
  | Seq r1 r2 => rmatch r1 c (fun c' => rmatch r2 c' k)
  | Alt r1 r2 =>
      match rmatch r1 c k with
      | Some x => Some x
      | None => rmatch r2 c k
      end
  | Rep lo g r' =>
      rep_min (rmatch r') lo c
        (fun c' => rep_loop (rmatch r') g (S (length (rest c'))) c' k)
  end.
End Matcher.

(** One attempt at a fixed start; [must_advance] refuses the empty match
    (set by the scanner right after an empty match). *)
Definition match_at (r : regex) (c : cursor) (must_advance : bool)
  : option cursor :=
  rmatch r c (fun e =>
    if must_advance && (pos e =? pos c)%nat then None else Some e).

(** [search]: the first start, from the cursor on, at which the pattern
    matches; the result is the start offset and the cursor at the end. *)
Fixpoint search_from (r : regex) (p : nat) (pv : option ascii) (s : str)
         (must_advance : bool) {struct s} : option (nat * cursor) :=
  match match_at r (Cursor p pv s) must_advance with
  | Some e => Some (p, e)
  | None =>
      match s with
      | [] => None
      | a :: t => search_from r (S p) (Some a) t false
      end
  end.

Definition search (r : regex) (c : cursor) (must_advance : bool) :=
  search_from r (pos c) (prev c) (rest c) must_advance.

(** The scanner behind [finditer] and [findall]: each search starts where
    the previous match ended. *)
Fixpoint scan (r : regex) (fuel : nat) (c : cursor) (must_advance : bool)
  : list (nat * nat) :=
  match fuel with
  | O => []
  | S f =>
      match search r c must_advance with
      | None => []
      | Some (st, e) => (st, pos e) :: scan r f e (pos e =? st)%nat
      end
  end.

(** [re.finditer(r, s)] as the list of spans [(m.start(), m.end())]. *)
Definition finditer (r : regex) (s : str) : list (nat * nat) :=
  scan r (2 * length s + 2) (start_of s) false.

(** [len(re.findall(r, s))] *)
Definition findall_count (r : regex) (s : str) : Z := len (finditer r s).

(** [m.group()] *)
Definition group (s : str) (m : nat * nat) : str := slice s (fst m) (snd m).

(** [content[:m.start()].count('\n') + 1] *)
Definition line_of (s : str) (m : nat * nat) : Z :=
  Z.of_nat (count_nl (firstn (fst m) s)) + 1.

(** ** Pattern syntax *)

Definition seqs (rs : list regex) : regex := fold_right Seq Eps rs.

Definition chr (a : ascii) : regex := Chr (Ascii.eqb a).

(** A literal word, under [re.IGNORECASE] when [icase] is set. *)
Definition lit_gen (icase : bool) (s : string) : regex :=
  seqs (map (fun a =>
               if icase
               then Chr (fun b => Ascii.eqb (lower_char a) (lower_char b))
               else chr a) (s2l s)).

Definition lit : string -> regex := lit_gen false.
Definition ilit : string -> regex := lit_gen true.

Definition ws : regex := Chr isspace.              (* \s *)
Definition wd : regex := Chr isword.               (* \w *)
Definition dg : regex := Chr isdigit.              (* \d *)

(** [.] : any character but a line break, or any character at all under
    [re.DOTALL]. *)
Definition dot (dotall : bool) : regex :=
  Chr (fun a => dotall || negb (is_nl a)).

(** A negated class [[^...]]. *)
Definition none_of (s : string) : regex :=
  Chr (fun a => negb (existsb (Ascii.eqb a) (s2l s))).

Definition one_of (s : string) : regex :=
  Chr (fun a => existsb (Ascii.eqb a) (s2l s)).

Definition star (r : regex) : regex := Rep 0 true r.        (* r*    *)
Definition plus (r : regex) : regex := Rep 1 true r.        (* r+    *)
Definition lazy_star (r : regex) : regex := Rep 0 false r.  (* r*?   *)
Definition at_least (n : nat) (r : regex) : regex := Rep n true r. (* r{n,} *)

Definition alts (rs : list regex) : regex :=
  match rs with
  | [] => Eps
  | r :: rs' => fold_left Alt rs' r
  end.

(** The two characters of the class of quotes, double and single. *)
Definition quote : string :=
  String (ascii_of_nat 34) (String (ascii_of_nat 39) EmptyString).
Definition nl : regex := Chr is_nl.

(** [(?:\n(?:.*\n)*?){n,}] *)
Definition line_block (dotall : bool) (n : nat) : regex :=
  at_least n (Seq nl (lazy_star (Seq (star (dot dotall)) nl))).

(** ** The pattern registry *)

Record rule : Type := Rule {
  rule_name : string;
  rule_pattern : regex;
  rule_severity : string;
  rule_description : string
}.

(** [_load_vulnerability_patterns] *)
Definition _load_vulnerability_patterns : list rule :=
  [ (* (execute|query)\s*\(\s*Q.*\+.*Q  with Q the class of both quotes *)
    Rule "SQL Injection"
      (seqs [alts [lit "execute"; lit "query"]; star ws; lit "("; star ws;
             one_of quote; star (dot false); lit "+"; star (dot false);
             one_of quote])
      "HIGH" "Potential SQL injection vulnerability";
    (* innerHTML\s*=\s*.*\+ *)
    Rule "XSS Vulnerability"
      (seqs [lit "innerHTML"; star ws; lit "="; star ws; star (dot false);
             lit "+"])
      "MEDIUM" "Potential XSS vulnerability through innerHTML";
    (* (password|api_key|secret)\s*=\s*Q[^Q]+Q  with Q as above *)
    Rule "Hardcoded Credentials"
      (seqs [alts [lit "password"; lit "api_key"; lit "secret"]; star ws;
             lit "="; star ws; one_of quote; plus (none_of quote);
             one_of quote])
      "HIGH" "Hardcoded credentials found";
    (* Math\.random\(\) *)
    Rule "Insecure Random"
      (lit "Math.random()")
      "LOW" "Using insecure random number generation" ]%string.

(** [for\s+.*in.*:\s*\n\s*] : the common head of the two loop rules. *)
Definition for_header : regex :=
  seqs [lit "for"; plus ws; star (dot false); lit "in"; star (dot false);
        lit ":"; star ws; nl; star ws].

(** [_load_performance_patterns] *)
Definition _load_performance_patterns : list rule :=
  [ (* for\s+.*in.*:\s*\n\s*.*\.query\( *)
    Rule "N+1 Query"
      (seqs [for_header; star (dot false); lit ".query("])
      "MEDIUM" "Potential N+1 query problem";
    (* for\s+.*in.*:\s*\n\s*for\s+.*in.*: *)
    Rule "Nested Loops"
      (seqs [for_header; lit "for"; plus ws; star (dot false); lit "in";
             star (dot false); lit ":"])
      "LOW" "Nested loops may cause performance issues";
    (* (requests\.get|urllib\.urlopen)\( *)
    Rule "Synchronous IO"
      (seqs [alts [lit "requests.get"; lit "urllib.urlopen"]; lit "("])
      "MEDIUM" "Synchronous IO operation" ]%string.

(** [self.vulnerability_patterns], [self.performance_patterns]: set once by
    [__init__] and never written again. *)
Definition vulnerability_patterns : list rule := _load_vulnerability_patterns.
Definition performance_patterns : list rule := _load_performance_patterns.

(** The rules local to [_detect_code_patterns]; they run under
    [re.MULTILINE | re.DOTALL]. *)
Record pattern_def : Type := PatternDef {
  pd_name : string;
  pd_pattern : regex;
  pd_type : string
}.

(** [def\s+\w+\s*\([^)]*\):\s*(?:\n(?:.*\n)*?){n,}] *)
Definition long_def (dotall : bool) (n : nat) : regex :=
  seqs [lit "def"; plus ws; plus wd; star ws; lit "("; star (none_of ")");
        lit "):"; star ws; line_block dotall n].

Definition design_patterns : list pattern_def :=
  [ (* class\s+\w+.*:\s*\n.*_instance\s*=\s*None *)
    PatternDef "Singleton Pattern"
      (seqs [lit "class"; plus ws; plus wd; star (dot true); lit ":";
             star ws; nl; star (dot true); lit "_instance"; star ws; lit "=";
             star ws; lit "None"])
      "design_pattern";
    (* def\s+create_\w+\s*\( *)
    PatternDef "Factory Pattern"
      (seqs [lit "def"; plus ws; lit "create_"; plus wd; star ws; lit "("])
      "design_pattern";
    (* (notify|observer|subscribe) *)
    PatternDef "Observer Pattern"
      (alts [lit "notify"; lit "observer"; lit "subscribe"])
      "design_pattern";
    (* def\s+execute\s*\( *)
    PatternDef "Strategy Pattern"
      (seqs [lit "def"; plus ws; lit "execute"; star ws; lit "("])
      "design_pattern" ]%string.

Definition anti_patterns : list pattern_def :=
  [ (* class\s+\w+.*:\s*(?:\n(?:.*\n)*?){100,} *)
    PatternDef "God Class"
      (seqs [lit "class"; plus ws; plus wd; star (dot true); lit ":";
             star ws; line_block true 100])
      "anti_pattern";
    (* def\s+\w+\s*\([^)]*\):\s*(?:\n(?:.*\n)*?){30,} *)
    PatternDef "Long Method" (long_def true 30) "anti_pattern";
    (* \b\d{2,}\b *)
    PatternDef "Magic Numbers" (seqs [Bnd; at_least 2 dg; Bnd]) "anti_pattern"
  ]%string.

Definition all_patterns : list pattern_def := design_patterns ++ anti_patterns.

(** ** Results of the analysers *)

(** An entry of [_detect_code_patterns]. *)
Record pattern_match : Type := PatternMatch {
  pm_name : string;
  pm_type : string;
  pm_line_number : Z;
  pm_matched_text : str
}.

(** An entry of [_scan_security_vulnerabilities]; the key ['file'] is absent
    until the project assessment writes it. *)
Record vulnerability : Type := Vulnerability {
  v_name : string;
  v_severity : string;
  v_description : string;
  v_line_number : Z;
  v_matched_code : str;
  v_file : option str
}.

(** An entry of [_analyze_performance_patterns]. *)
Record performance_issue : Type := PerformanceIssue {
  p_name : string;
  p_severity : string;
  p_description : string;
  p_line_number : Z;
  p_suggestion : string;
  p_file : option str
}.

Record code_metrics : Type := CodeMetrics {
  total_lines : Z;
  code_lines : Z;
  comment_lines : Z;
  blank_lines : Z;
  functions_count : Z;
  classes_count : Z;
  imports_count : Z;
  average_complexity : option Q;
  max_complexity : option Z;
  maintainability_index : option Q
}.

Record debt_indicators : Type := DebtIndicators {
  todo_comments : Z;
  code_duplication : Z;
  long_functions : Z;
  magic_numbers : Z;
  deep_nesting : Z;
  overall_score : Z;
  assessment : string
}.

(** ** File-level analysers without optional providers *)

(** [_detect_file_type]: [os.path.splitext(file_path)[1].lower()] looked up
    in the table of extensions. *)
Definition is_slash (c : ascii) : bool := (code c =? 47)%nat.
Definition is_dot (c : ascii) : bool := (code c =? 46)%nat.

Definition basename (p : str) : str := last (split_by is_slash p) [].

(** The extension of a base name: from its last dot on, unless only dots
    come before that dot. *)
Definition splitext_ext (p : str) : str :=
  let pieces := split_by is_dot (basename p) in
  match rev pieces with
  | [] | [_] => []
  | e :: before =>
      if existsb truthy before then ascii_of_nat 46 :: e else []
  end.

Definition type_mapping : list (string * string) :=
  [ (".py", "Python"); (".java", "Java"); (".js", "JavaScript");
    (".ts", "TypeScript"); (".jsx", "React JSX"); (".tsx", "React TSX");
    (".cpp", "C++"); (".c", "C"); (".cs", "C#"); (".go", "Go");
    (".rs", "Rust"); (".php", "PHP"); (".rb", "Ruby"); (".scala", "Scala");
    (".kt", "Kotlin") ]%string.

Fixpoint dict_get {V : Type} (d : list (string * V)) (key : str) (default : V)
  : V :=
  match d with
  | [] => default
  | (k, v) :: d' => if str_eqb (s2l k) key then v else dict_get d' key default
  end.

Definition _detect_file_type (file_path : str) : string :=
  dict_get type_mapping (lower (splitext_ext file_path)) "Unknown"%string.

(** [match.group()[:100] + '...' if len(match.group()) > 100 else
    match.group()]: the conditional binds weaker than [+]. *)
Definition matched_text_of (g : str) : str :=
  if len g >? 100 then firstn 100 g ++ s2l "..." else g.

Definition _detect_code_patterns (content : str) : list pattern_match :=
  flat_map (fun pd =>
    map (fun m =>
           PatternMatch (pd_name pd) (pd_type pd) (line_of content m)
                        (matched_text_of (group content m)))
        (finditer (pd_pattern pd) content))
    all_patterns.

Definition vulnerability_of (content : str) (r : rule) (m : nat * nat)
  : vulnerability :=
  Vulnerability (rule_name r) (rule_severity r) (rule_description r)
                (line_of content m) (group content m) None.

Definition _scan_security_vulnerabilities (content : str)
  : list vulnerability :=
  flat_map (fun r => map (vulnerability_of content r)
                         (finditer (rule_pattern r) content))
           vulnerability_patterns.

Definition _get_performance_suggestion (pattern_name : string) : string :=
  dict_get
    [ ("N+1 Query", "Consider using batch queries or eager loading");
      ("Nested Loops",
       "Consider using more efficient algorithms or data structures");
      ("Synchronous IO",
       "Consider using async/await or threading for IO operations")
    ]%string
    (s2l pattern_name) "Review for potential optimization"%string.

Definition performance_issue_of (content : str) (r : rule) (m : nat * nat)
  : performance_issue :=
  PerformanceIssue (rule_name r) (rule_severity r) (rule_description r)
                   (line_of content m)
                   (_get_performance_suggestion (rule_name r)) None.

Definition _analyze_performance_patterns (content : str)
  : list performance_issue :=
  flat_map (fun r => map (performance_issue_of content r)
                         (finditer (rule_pattern r) content))
           performance_patterns.

(** [_detect_code_duplication] *)
Definition _detect_code_duplication (content : str) : Z :=
  let lines := map strip (filter (fun line => truthy (strip line))
                                 (split_nl content)) in
  let duplicates :=
    fold_left (fun duplicates line =>
                 if len line >? 20 then
                   if list_count line lines >? 1 then duplicates + 1
                   else duplicates
                 else duplicates)
              lines 0 in
  duplicates / 2.

(** [_count_deep_nesting] *)
Definition _count_deep_nesting (content : str) : Z :=
  fold_left (fun deep_nesting_count line =>
               let indent_level := (len line - len (lstrip line)) / 4 in
               if indent_level >? 4 then deep_nesting_count + 1
               else deep_nesting_count)
            (split_nl content) 0.

(** [_assess_debt_level] *)
Definition _assess_debt_level (debt_score : Z) : string :=
  if debt_score <? 20 then "LOW"
  else if debt_score <? 50 then "MEDIUM"
  else if debt_score <? 80 then "HIGH"
  else "CRITICAL".

(** [#.*TODO|#.*FIXME|#.*HACK] under [re.IGNORECASE] *)
Definition todo_re : regex :=
  alts [ seqs [lit "#"; star (dot false); ilit "TODO"];
         seqs [lit "#"; star (dot false); ilit "FIXME"];
         seqs [lit "#"; star (dot false); ilit "HACK"] ].

(** [\b\d{3,}\b] *)
Definition magic_re : regex := seqs [Bnd; at_least 3 dg; Bnd].

(** [_calculate_technical_debt] *)
Definition _calculate_technical_debt (content : str) : debt_indicators :=
  let todo := findall_count todo_re content in
  let dup := _detect_code_duplication content in
  let long := findall_count (long_def false 20) content in
  let magic := findall_count magic_re content in
  let deep := _count_deep_nesting content in
  let debt_score :=
    Z.min 100 (todo * 5 + dup * 10 + long * 8 + magic * 2 + deep * 15) in
  DebtIndicators todo dup long magic deep debt_score
                 (_assess_debt_level debt_score).

(** ** Exceptions *)

(** A call either returns or raises an [Exception] carrying [str(e)]. *)
Inductive result (A : Type) : Type :=
| Ok (a : A)
| Raise (e : str).
Arguments Ok {A} a.
Arguments Raise {A} e.

Definition bind {A B : Type} (m : result A) (k : A -> result B) : result B :=
  match m with
  | Ok a => k a
  | Raise e => Raise e
  end.

Notation "x <- m ;; k" := (bind m (fun x => k))
  (at level 61, m at next level, right associativity).

(** ** Optional providers *)

(** What [radon.complexity.cc_visit] returns for one block. *)
Record cc_result : Type := CcResult {
  cc_name : str;
  cc_complexity : Z;
  cc_lineno : Z
}.

Record radon_api : Type := RadonApi {
  cc_visit : str -> result (list cc_result);
  mi_visit : str -> result Q
}.

(** What the text-classification pipeline returns: labels with scores. *)
Definition classification : Type := list (str * Q).

Record complexity_analysis : Type := ComplexityAnalysis {
  ca_total_functions : Z;
  ca_complex_functions : list cc_result;
  ca_average_complexity : Q;
  ca_max_complexity : Z
}.

Record ai_insights : Type := AiInsights {
  ai_status : string;
  ai_summary : string;
  ai_recommendations : list string;
  ai_code_quality : string;
  ai_classification : option classification;
  ai_error : option str
}.

Definition sumZ (l : list Z) : Z := fold_left Z.add l 0.

(** [max] of a non-empty list of integers. *)
Definition maxZ (l : list Z) : Z :=
  match l with
  | [] => 0
  | x :: l' => fold_left Z.max l' x
  end.

Definition true_div (a b : Z) : Q := (inject_Z a / inject_Z b)%Q.

(** [def\s+\w+\s*\(] *)
Definition def_re : regex :=
  seqs [lit "def"; plus ws; plus wd; star ws; lit "("].

(** [class\s+\w+] *)
Definition class_re : regex := seqs [lit "class"; plus ws; plus wd].

(** [(import\s+|from\s+.*\s+import)] *)
Definition import_re : regex :=
  alts [ seqs [lit "import"; plus ws];
         seqs [lit "from"; plus ws; star (dot false); plus ws; lit "import"] ].

(** [def\s+test_] *)
Definition test_re : regex := seqs [lit "def"; plus ws; lit "test_"].

Definition is_comment (line : str) : bool := startswith (strip line) (s2l "#").
Definition is_code (line : str) : bool :=
  truthy (strip line) && negb (is_comment line).
Definition is_blank (line : str) : bool := negb (truthy (strip line)).

Section Agent.
(** [RADON_AVAILABLE] with the two functions imported from it, and
    [self.code_analysis_pipeline]. *)
Variable radon : option radon_api.
Variable code_analysis_pipeline : option (str -> result classification).

(** The part of [_calculate_code_metrics] under [if RADON_AVAILABLE]: an
    exception leaves what was stored before it. *)
Definition add_radon_metrics (content : str) (metrics : code_metrics)
  : code_metrics :=
  match radon with
  | None => metrics
  | Some api =>
      match cc_visit api content with
      | Raise _ => metrics
      | Ok complexity_results =>
          let cs := map cc_complexity complexity_results in
          let metrics1 :=
            match complexity_results with
            | [] => metrics
            | _ :: _ =>
                CodeMetrics (total_lines metrics) (code_lines metrics)
                  (comment_lines metrics) (blank_lines metrics)
                  (functions_count metrics) (classes_count metrics)
                  (imports_count metrics)
                  (Some (true_div (sumZ cs) (len cs))) (Some (maxZ cs))
                  (maintainability_index metrics)
            end in
          match mi_visit api content with
          | Raise _ => metrics1
          | Ok mi_results =>
              if Qeq_bool mi_results 0 then metrics1
              else
                CodeMetrics (total_lines metrics1) (code_lines metrics1)
                  (comment_lines metrics1) (blank_lines metrics1)
                  (functions_count metrics1) (classes_count metrics1)
                  (imports_count metrics1) (average_complexity metrics1)
                  (max_complexity metrics1) (Some mi_results)
          end
      end
  end.

(** [_calculate_code_metrics] *)
Definition _calculate_code_metrics (content : str) : code_metrics :=
  let lines := split_nl content in
  add_radon_metrics content
    (CodeMetrics
       (len lines)
       (len (filter is_code lines))
       (len (filter is_comment lines))
       (len (filter is_blank lines))
       (findall_count def_re content)
       (findall_count class_re content)
       (findall_count import_re content)
       None None None).

(** [_analyze_complexity] *)
Definition _analyze_complexity (content : str) : complexity_analysis :=
  let empty := ComplexityAnalysis 0 [] 0 0 in
  match radon with
  | None => empty
  | Some api =>
      match cc_visit api content with
      | Raise _ => empty
      | Ok [] => empty
      | Ok results =>
          let complexities := map cc_complexity results in
          ComplexityAnalysis
            (len results)
            (filter (fun r => cc_complexity r >? 10) results)
            (true_div (sumZ complexities) (len complexities))
            (maxZ complexities)
      end
  end.

(** [_generate_ai_insights] *)
Definition _generate_ai_insights (content : str) : ai_insights :=
  let insights := AiInsights "not_available" "" [] "unknown" None None in
  match code_analysis_pipeline with
  | None => insights
  | Some pipeline =>
      let analysis_text :=
        if len content >? 1000 then firstn 1000 content ++ s2l "..."
        else content in
      match pipeline analysis_text with
      | Raise e =>
          AiInsights "error" "" [] "unknown" None (Some e)
      | Ok res =>
          AiInsights "analyzed"
            "Code analysis completed using CodeBERT model"
            [ "Consider implementing proper error handling";
              "Add comprehensive documentation";
              "Implement unit tests for critical functions";
              "Review code for security best practices" ]%string
            (if len (split_nl content) >? 500 then "complex"
             else if findall_count test_re content >? 0 then "good"
             else "moderate")
            (Some res) None
      end
  end.
End Agent.

(** ** The file analyser *)

(** The methods [analyze_code_file] calls on [self]; each call may raise. *)
Record methods : Type := Methods {
  m_detect_file_type : str -> result string;
  m_calculate_code_metrics : str -> result code_metrics;
  m_detect_code_patterns : str -> result (list pattern_match);
  m_scan_security_vulnerabilities : str -> result (list vulnerability);
  m_analyze_performance_patterns : str -> result (list performance_issue);
  m_analyze_complexity : str -> result complexity_analysis;
  m_calculate_technical_debt : str -> result debt_indicators;
  m_generate_ai_insights : str -> result ai_insights
}.

(** The methods as the class defines them: on a text, none of them raises. *)
Definition CodeLensAgent (radon : option radon_api)
    (pipeline : option (str -> result classification)) : methods :=
  Methods
    (fun p => Ok (_detect_file_type p))
    (fun c => Ok (_calculate_code_metrics radon c))
    (fun c => Ok (_detect_code_patterns c))
    (fun c => Ok (_scan_security_vulnerabilities c))
    (fun c => Ok (_analyze_performance_patterns c))
    (fun c => Ok (_analyze_complexity radon c))
    (fun c => Ok (_calculate_technical_debt c))
    (fun c => Ok (_generate_ai_insights pipeline c)).

(** The values stored in a report. *)
Inductive value : Type :=
| VStr (s : str)
| VLabel (s : string)
| VMetrics (m : code_metrics)
| VPatterns (l : list pattern_match)
| VVulnerabilities (l : list vulnerability)
| VPerformance (l : list performance_issue)
| VComplexity (c : complexity_analysis)
| VDebt (d : debt_indicators)
| VInsights (i : ai_insights).

(** A report is a dictionary, keys in insertion order. *)
Definition report : Type := list (string * value).

Definition keys (d : report) : list string := map fst d.

(** The [try] block of [analyze_code_file]: the entries of the dictionary
    display are evaluated top to bottom. *)
Definition analyze_code_file_body (self : methods) (t_try : str)
    (file_path content : str) : result report :=
  file_type <- m_detect_file_type self file_path ;;
  metrics <- m_calculate_code_metrics self content ;;
  patterns <- m_detect_code_patterns self content ;;
  security_issues <- m_scan_security_vulnerabilities self content ;;
  performance_issues <- m_analyze_performance_patterns self content ;;
  complexity <- m_analyze_complexity self content ;;
  technical_debt <- m_calculate_technical_debt self content ;;
  insights <- m_generate_ai_insights self content ;;
  Ok [ ("file_path", VStr file_path);
       ("analyzed_at", VStr t_try);
       ("file_type", VLabel file_type);
       ("metrics", VMetrics metrics);
       ("patterns", VPatterns patterns);
       ("security_issues", VVulnerabilities security_issues);
       ("performance_issues", VPerformance performance_issues);
       ("complexity_analysis", VComplexity complexity);
       ("technical_debt", VDebt technical_debt);
       ("ai_insights", VInsights insights) ]%string.

(** [analyze_code_file]; [t_try] and [t_except] are what
    [datetime.now().isoformat()] reads in the [try] block and in the
    handler. *)
Definition analyze_code_file (self : methods) (t_try t_except : str)
    (file_path content : str) : report :=
  match analyze_code_file_body self t_try file_path content with
  | Ok analysis_result => analysis_result
  | Raise e =>
      [ ("error", VStr e);
        ("file_path", VStr file_path);
        ("analyzed_at", VStr t_except) ]%string
  end.

(** ** The project aggregator *)

(** One entry of [project_data['files']]; a key may be missing. *)
Record file_info : Type := FileInfo {
  fi_name : option str;
  fi_content : option str
}.

(** [project_data.get('files', [])] *)
Definition project_data : Type := list file_info.

(** [file_info.get(key, default)] *)
Definition get_or (o : option str) (default : str) : str :=
  match o with Some s => s | None => default end.

Definition content_of (f : file_info) : str := get_or (fi_content f) [].
Definition name_of (f : file_info) : str := get_or (fi_name f) [].

(** [_categorize_project_size] *)
Definition _categorize_project_size (total_lines : Z) : string :=
  if total_lines <? 1000 then "Small"
  else if total_lines <? 10000 then "Medium"
  else if total_lines <? 100000 then "Large"
  else "Very Large".

(** [d[k] = d.get(k, 0) + 1] on a dictionary in insertion order. *)
Fixpoint dict_incr (d : list (string * Z)) (k : string) : list (string * Z) :=
  match d with
  | [] => [(k, 1)]
  | (k', n) :: d' =>
      if String.eqb k' k then (k', n + 1) :: d' else (k', n) :: dict_incr d' k
  end.

(** [max(d, key=d.get)]: the first key, in insertion order, whose count is
    the largest. *)
Definition dict_argmax (d : list (string * Z)) : string :=
  match d with
  | [] => "Unknown"
  | kv :: d' =>
      fst (fold_left (fun best kv' =>
                        if snd kv' >? snd best then kv' else best) d' kv)
  end.

Record project_overview : Type := ProjectOverview {
  total_files : Z;
  total_lines_of_code : Z;
  primary_language : string;
  language_distribution : list (string * Z);
  project_size : string;
  file_types : list string
}.

(** [_analyze_project_overview] *)
Definition _analyze_project_overview (files : project_data)
  : project_overview :=
  let '(language_count, total_lines) :=
    fold_left (fun '(language_count, total_lines) f =>
                 (dict_incr language_count (_detect_file_type (name_of f)),
                  total_lines + len (split_nl (content_of f))))
              files ([], 0) in
  ProjectOverview (len files) total_lines (dict_argmax language_count)
                  language_count (_categorize_project_size total_lines)
                  (map fst language_count).

Record architecture_pattern : Type := ArchitecturePattern {
  ap_name : string;
  ap_confidence : Q;
  ap_description : string
}.

Definition mvc_entry : architecture_pattern :=
  ArchitecturePattern "Model-View-Controller (MVC)" 0.8
    "Traditional MVC architecture pattern detected".

Definition microservices_entry : architecture_pattern :=
  ArchitecturePattern "Microservices Architecture" 0.7
    "Multiple service components suggest microservices pattern".

Definition repository_entry : architecture_pattern :=
  ArchitecturePattern "Repository Pattern" 0.9
    "Data access abstraction through repository pattern".

(** ['word' in name.lower()] *)
Definition mentions (word : string) (name : str) : bool :=
  str_in (s2l word) (lower name).

(** [_detect_architecture_patterns] *)
Definition _detect_architecture_patterns (files : project_data)
  : list architecture_pattern :=
  let file_names := map name_of files in
  let patterns := [] in
  let patterns :=
    if existsb (mentions "controller") file_names
       && existsb (mentions "model") file_names
       && existsb (mentions "view") file_names
    then patterns ++ [mvc_entry] else patterns in
  let patterns :=
    if existsb (mentions "service") file_names
       && (len (filter (mentions "api") file_names) >? 2)
    then patterns ++ [microservices_entry] else patterns in
  let patterns :=
    if existsb (mentions "repository") file_names
    then patterns ++ [repository_entry] else patterns in
  patterns.

(** [total_metrics] of [_summarize_code_quality]; the key
    ['average_technical_debt'] exists only once some file was analysed. *)
Record total_metrics : Type := TotalMetrics {
  tm_total_functions : Z;
  tm_total_classes : Z;
  tm_average_complexity : Z;
  tm_security_issues_count : Z;
  tm_performance_issues_count : Z;
  tm_technical_debt_score : Z;
  tm_average_technical_debt : option Q
}.

(** [round(x, 0)] to an integer, exact ties to the even neighbour. *)
Definition round_half_even (q : Q) : Z :=
  let f := Qfloor q in
  match (q - inject_Z f ?= 1 # 2)%Q with
  | Lt => f
  | Gt => f + 1
  | Eq => if Z.even f then f else f + 1
  end.

(** [round(x, 1)] *)
Definition round1 (q : Q) : Q := Qmake (round_half_even (q * 10)) 10.

Definition Qmin (a b : Q) : Q := if Qle_bool a b then a else b.
Definition Qmax (a b : Q) : Q := if Qle_bool b a then a else b.

(** [_calculate_overall_quality_score] *)
Definition _calculate_overall_quality_score (metrics : total_metrics) : Q :=
  let base_score := 100 in
  let security_penalty := Z.min 30 (tm_security_issues_count metrics * 5) in
  let performance_penalty :=
    Z.min 20 (tm_performance_issues_count metrics * 3) in
  let average_technical_debt :=
    match tm_average_technical_debt metrics with
    | Some a => a
    | None => 0%Q
    end in
  let debt_penalty := Qmin 40 (average_technical_debt * 0.4) in
  let final_score :=
    Qmax 0 (inject_Z (base_score - security_penalty - performance_penalty)
            - debt_penalty) in
  round1 final_score.

(** [_rate_quality] *)
Definition _rate_quality (score : Q) : string :=
  if Qle_bool 80 score then "Excellent"
  else if Qle_bool 60 score then "Good"
  else if Qle_bool 40 score then "Fair"
  else "Poor".

Record quality_summary : Type := QualitySummary {
  qs_totals : total_metrics;
  qs_analyzed_files : Z;
  qs_overall_quality_score : Q;
  qs_quality_rating : string
}.

Section Project.
Variable radon : option radon_api.

(** One turn of the loop of [_summarize_code_quality]. *)
Definition summarize_step (st : total_metrics * Z) (f : file_info)
  : total_metrics * Z :=
  let '(tm, file_count) := st in
  let content := content_of f in
  if truthy content then
    let metrics := _calculate_code_metrics radon content in
    let security_issues := _scan_security_vulnerabilities content in
    let performance_issues := _analyze_performance_patterns content in
    let technical_debt := _calculate_technical_debt content in
    (TotalMetrics
       (tm_total_functions tm + functions_count metrics)
       (tm_total_classes tm + classes_count metrics)
       (tm_average_complexity tm)
       (tm_security_issues_count tm + len security_issues)
       (tm_performance_issues_count tm + len performance_issues)
       (tm_technical_debt_score tm + overall_score technical_debt)
       (tm_average_technical_debt tm),
     file_count + 1)
  else st.

(** [_summarize_code_quality] *)
Definition _summarize_code_quality (files : project_data)
  : quality_summary :=
  let '(tm, file_count) :=
    fold_left summarize_step files (TotalMetrics 0 0 0 0 0 0 None, 0) in
  let tm :=
    if file_count >? 0 then
      TotalMetrics (tm_total_functions tm) (tm_total_classes tm)
        (tm_average_complexity tm) (tm_security_issues_count tm)
        (tm_performance_issues_count tm) (tm_technical_debt_score tm)
        (Some (true_div (tm_technical_debt_score tm) file_count))
    else tm in
  let quality_score := _calculate_overall_quality_score tm in
  QualitySummary tm file_count quality_score (_rate_quality quality_score).
End Project.

(** [str(n)] for an integer, as an f-string prints it. *)
Definition str_of_int (n : Z) : string := NilZero.string_of_int (Z.to_int n).

Definition severity_is (label : string) (sev : string) : bool :=
  String.eqb sev label.

(** [_rate_security] *)
Definition _rate_security (score : Z) : string :=
  if score >=? 90 then "Excellent"
  else if score >=? 70 then "Good"
  else if score >=? 50 then "Fair"
  else "Poor".

Record security_assessment : Type := SecurityAssessment {
  sa_total_issues : Z;
  sa_high_severity_issues : Z;
  sa_medium_severity_issues : Z;
  sa_low_severity_issues : Z;
  sa_security_score : Z;
  sa_security_rating : string;
  sa_top_issues : list vulnerability
}.

(** [issue['file'] = file_info.get('name', 'unknown')] *)
Definition v_set_file (name : str) (issue : vulnerability) : vulnerability :=
  Vulnerability (v_name issue) (v_severity issue) (v_description issue)
                (v_line_number issue) (v_matched_code issue) (Some name).

Definition p_set_file (name : str) (issue : performance_issue)
  : performance_issue :=
  PerformanceIssue (p_name issue) (p_severity issue) (p_description issue)
                   (p_line_number issue) (p_suggestion issue) (Some name).

(** The loop of [_assess_project_security] that fills
    [all_security_issues]. *)
Definition collect_security_issues (files : project_data)
  : list vulnerability :=
  fold_left (fun all_security_issues f =>
               let content := content_of f in
               if truthy content then
                 fold_left (fun acc issue =>
                              acc ++ [v_set_file
                                        (get_or (fi_name f) (s2l "unknown"))
                                        issue])
                           (_scan_security_vulnerabilities content)
                           all_security_issues
               else all_security_issues)
            files [].

(** [_assess_project_security] *)
Definition _assess_project_security (files : project_data)
  : security_assessment :=
  let all_security_issues := collect_security_issues files in
  let security_score := 100 in
  let high_severity :=
    len (filter (fun i => severity_is "HIGH" (v_severity i))
                all_security_issues) in
  let medium_severity :=
    len (filter (fun i => severity_is "MEDIUM" (v_severity i))
                all_security_issues) in
  let low_severity :=
    len (filter (fun i => severity_is "LOW" (v_severity i))
                all_security_issues) in
  let security_score :=
    security_score
    - (high_severity * 20 + medium_severity * 10 + low_severity * 5) in
  let security_score := Z.max 0 security_score in
  SecurityAssessment (len all_security_issues) high_severity medium_severity
    low_severity security_score (_rate_security security_score)
    (firstn 5 all_security_issues).

Record performance_analysis : Type := PerformanceAnalysis {
  pa_total_performance_issues : Z;
  pa_critical_issues : Z;
  pa_performance_score : Z;
  pa_top_issues : list performance_issue
}.

Definition collect_performance_issues (files : project_data)
  : list performance_issue :=
  fold_left (fun all_performance_issues f =>
               let content := content_of f in
               if truthy content then
                 fold_left (fun acc issue =>
                              acc ++ [p_set_file
                                        (get_or (fi_name f) (s2l "unknown"))
                                        issue])
                           (_analyze_performance_patterns content)
                           all_performance_issues
               else all_performance_issues)
            files [].

(** [_analyze_project_performance] *)
Definition _analyze_project_performance (files : project_data)
  : performance_analysis :=
  let all_performance_issues := collect_performance_issues files in
  PerformanceAnalysis
    (len all_performance_issues)
    (len (filter (fun i => severity_is "HIGH" (p_severity i))
                 all_performance_issues))
    (Z.max 0 (100 - len all_performance_issues * 10))
    (firstn 5 all_performance_issues).

Record recommendation : Type := Recommendation {
  rec_category : string;
  rec_priority : string;
  rec_title : string;
  rec_description : string
}.

Definition security_recommendation (n : Z) : recommendation :=
  Recommendation "Security" "HIGH" "Address High-Severity Security Issues"
    ("Found " ++ str_of_int n
     ++ " high-severity security issues that need immediate attention.").

Definition performance_recommendation (n : Z) : recommendation :=
  Recommendation "Performance" "MEDIUM" "Optimize Performance Bottlenecks"
    ("Found " ++ str_of_int n
     ++ " performance issues that could impact application speed.").

Definition modularization_recommendation : recommendation :=
  Recommendation "Architecture" "MEDIUM" "Consider Code Modularization"
    "Large codebase detected. Consider breaking down into smaller, more manageable modules.".

Definition testing_recommendation : recommendation :=
  Recommendation "Testing" "MEDIUM" "Implement Comprehensive Testing"
    "Add unit tests, integration tests, and automated testing to improve code reliability.".

Definition documentation_recommendation : recommendation :=
  Recommendation "Documentation" "LOW" "Improve Code Documentation"
    "Add comprehensive documentation, API docs, and inline comments for better maintainability.".

(** [_generate_project_recommendations] *)
Definition _generate_project_recommendations (files : project_data)
  : list recommendation :=
  let recommendations := [] in
  let overview := _analyze_project_overview files in
  let security := _assess_project_security files in
  let performance := _analyze_project_performance files in
  let recommendations :=
    if sa_high_severity_issues security >? 0
    then recommendations
         ++ [security_recommendation (sa_high_severity_issues security)]
    else recommendations in
  let recommendations :=
    if pa_critical_issues performance >? 0
    then recommendations
         ++ [performance_recommendation (pa_critical_issues performance)]
    else recommendations in
  let recommendations :=
    if String.eqb (project_size overview) "Large"
       || String.eqb (project_size overview) "Very Large"
    then recommendations ++ [modularization_recommendation]
    else recommendations in
  let recommendations := recommendations ++ [testing_recommendation] in
  let recommendations := recommendations ++ [documentation_recommendation] in
  firstn 10 recommendations.

(** ** Further operations of the aggregator *)

Record maintainability : Type := Maintainability {
  ms_maintainability_score : Q;
  ms_maintainability_rating : string;
  ms_average_technical_debt : Q;
  ms_files_analyzed : Z
}.

(** One turn of the loop of [_calculate_maintainability_score]. *)
Definition maintainability_step (st : Z * Z) (f : file_info) : Z * Z :=
  let '(total_debt_score, file_count) := st in
  let content := content_of f in
  if truthy content then
    (total_debt_score + overall_score (_calculate_technical_debt content),
     file_count + 1)
  else st.

(** [_calculate_maintainability_score]: the rating is taken from the score
    before it is rounded. *)
Definition _calculate_maintainability_score (files : project_data)
  : maintainability :=
  let '(total_debt_score, file_count) :=
    fold_left maintainability_step files (0, 0) in
  let average_debt :=
    if file_count >? 0 then true_div total_debt_score file_count else 0%Q in
  let maintainability_score := Qmax 0 (100 - average_debt) in
  Maintainability (round1 maintainability_score)
                  (_rate_quality maintainability_score)
                  (round1 average_debt) file_count.






(** ** Vocabulary of the properties *)

(** ['\n'.join(lines)], to write the texts of the examples. *)
Definition joinlines (lines : list string) : str :=
  match lines with
  | [] => []
  | l :: ls =>
      fold_left (fun acc x => acc ++ ascii_of_nat 10 :: s2l x) ls (s2l l)
  end.

(** [c'] is a later position of the same text as [c]. *)
Definition reach (c c' : cursor) : Prop :=
  (pos c <= pos c')%nat
  /\ (pos c' + length (rest c') = pos c + length (rest c))%nat.

(** Two successive matches of one scan: neither starts before the other
    ends, and they are different spans. *)
Definition span_lt (a b : nat * nat) : Prop :=
  (fst a <= snd a /\ snd a <= fst b /\ fst b <= snd b /\ fst a < snd b)%nat.

(** What a scan has left to do: two steps for each remaining character and
    for the end of the text, one less once the empty match is refused. *)
Definition scan_measure (c : cursor) (ma : bool) : nat :=
  2 * length (rest c) + (if ma then 1 else 2).

(** The rule of the registry used in the examples below. *)
Definition insecure_random_rule : rule :=
  Rule "Insecure Random" (lit "Math.random()") "LOW"
       "Using insecure random number generation".

(** The security issues of a project in the order they are discovered: file
    by file in the order of the input, skipping files without content, and
    within a file as the scanner lists them. *)
Definition security_issues_in_discovery_order (files : project_data)
  : list vulnerability :=
  flat_map (fun f =>
              if truthy (content_of f)
              then map (v_set_file (get_or (fi_name f) (s2l "unknown")))
                       (_scan_security_vulnerabilities (content_of f))
              else [])
           files.

(** The same for the performance issues. *)
Definition performance_issues_in_discovery_order (files : project_data)
  : list performance_issue :=
  flat_map (fun f =>
              if truthy (content_of f)
              then map (p_set_file (get_or (fi_name f) (s2l "unknown")))
                       (_analyze_performance_patterns (content_of f))
              else [])
           files.

(** How many of the issues have the given severity. *)
Definition severity_count (sev : string) (issues : list vulnerability) : Z :=
  len (filter (fun i => String.eqb (v_severity i) sev) issues).

(** The lines of all files, files without content included (each counts as
    one line). *)
Definition total_line_count (files : project_data) : Z :=
  fold_right (fun f acc => len (split_nl (content_of f)) + acc) 0 files.

(** How many of the performance issues have severity HIGH. *)
Definition critical_count (issues : list performance_issue) : Z :=
  len (filter (fun i => String.eqb (p_severity i) "HIGH") issues).

(** The rule list of the recommendations, gate by gate. *)
Definition recommendation_rules (high_security critical_performance lines : Z)
  : list recommendation :=
  (if 0 <? high_security then [security_recommendation high_security]
   else [])
  ++ (if 0 <? critical_performance
      then [performance_recommendation critical_performance] else [])
  ++ (if 10000 <=? lines then [modularization_recommendation] else [])
  ++ [testing_recommendation; documentation_recommendation].

(** The file name contains the word when letter case is ignored. *)
Definition contains_ignoring_case (word : string) (name : str) : Prop :=
  exists pre post, lower name = pre ++ s2l word ++ post.

(** Some file name contains the word. *)
Definition some_name_contains (word : string) (names : list str) : Prop :=
  exists name, In name names /\ contains_ignoring_case word name.

(** The keys of the error report and of the full report. *)
Definition error_keys : list string :=
  ["error"; "file_path"; "analyzed_at"]%string.

Definition full_keys : list string :=
  ["file_path"; "analyzed_at"; "file_type"; "metrics"; "patterns";
   "security_issues"; "performance_issues"; "complexity_analysis";
   "technical_debt"; "ai_insights"]%string.

(** One of the calls made by the [try] block raised [e]. *)
Definition some_call_raised (self : methods) (file_path content e : str)
  : Prop :=
  m_detect_file_type self file_path = Raise e
  \/ m_calculate_code_metrics self content = Raise e
  \/ m_detect_code_patterns self content = Raise e
  \/ m_scan_security_vulnerabilities self content = Raise e
  \/ m_analyze_performance_patterns self content = Raise e
  \/ m_analyze_complexity self content = Raise e
  \/ m_calculate_technical_debt self content = Raise e
  \/ m_generate_ai_insights self content = Raise e.

(** A credential of 120 digits between single quotes. *)
Definition long_secret : str :=
  s2l "secret='" ++ repeat (ascii_of_nat 49) 120 ++ s2l "'".

(** The files that are analysed: those with non-empty content. *)
Definition analyzed_files (files : project_data) : project_data :=
  filter (fun f => truthy (content_of f)) files.

(** The sum of a per-file figure over the analysed files, and the three
    sums the quality score is made of. *)
Definition sum_over (g : str -> Z) (files : project_data) : Z :=
  fold_right (fun f acc => g (content_of f) + acc) 0 (analyzed_files files).

Definition security_issue_count (files : project_data) : Z :=
  sum_over (fun c => len (_scan_security_vulnerabilities c)) files.

Definition performance_issue_count (files : project_data) : Z :=
  sum_over (fun c => len (_analyze_performance_patterns c)) files.

Definition debt_score_total (files : project_data) : Z :=
  sum_over (fun c => overall_score (_calculate_technical_debt c)) files.




(** A matcher that succeeds has called its continuation further on. *)
Definition forward {A : Type} (body : cursor -> @cont A -> option A) : Prop :=
  forall c k x, body c k = Some x ->
                exists c', reach c c' /\ k c' = Some x.

(** Closes a goal whose hypothesis puts a category in a list of other
    categories. *)
Ltac absurd_category H :=
  exfalso;
  repeat match type of H with
         | context [if ?b then _ else _] => destruct b
         end;
  simpl in H; intuition discriminate.

(** The least number of characters a match of the pattern goes over. *)
Fixpoint min_len (r : regex) : nat :=
  match r with
  | Eps => 0
  | Chr _ => 1
  | Bnd => 0
  | Seq r1 r2 => min_len r1 + min_len r2
  | Alt r1 r2 => Nat.min (min_len r1) (min_len r2)
  | Rep lo _ r' => lo * min_len r'
  end.

(** A matcher that succeeds has called its continuation at least [n]
    characters further on. *)
Definition advances {A : Type} (n : nat)
    (body : cursor -> @cont A -> option A) : Prop :=
  forall c k x, body c k = Some x ->
                exists c', reach c c' /\ (pos c + n <= pos c')%nat
                           /\ k c' = Some x.

(** How many whitespace characters a line begins with. *)
Fixpoint leading_space (line : str) : nat :=
  match line with
  | [] => 0
  | c :: t => if isspace c then S (leading_space t) else 0
  end.

(** [d.get(k, 0)] on a dictionary of counts. *)
Fixpoint dict_count (d : list (string * Z)) (k : string) : Z :=
  match d with
  | [] => 0
  | (k', n) :: d' => if String.eqb k' k then n else dict_count d' k
  end.

(** How many files are of the given language. *)
Definition files_of_language (lang : string) (files : project_data) : Z :=
  len (filter (fun f => String.eqb (_detect_file_type (name_of f)) lang)
              files).

(** The non-blank lines of a text, stripped, as [_detect_code_duplication]
    compares them. *)
Definition stripped_lines (content : str) : list str :=
  map strip (filter (fun line => truthy (strip line)) (split_nl content)).

(** The text [_generate_ai_insights] hands to the pipeline. *)
Definition analysis_text_of (content : str) : str :=
  if len content >? 1000 then firstn 1000 content ++ s2l "..." else content.

(** A provider whose complexity scan always raises, and one that returns a
    fixed list of blocks. *)
Definition failing_radon : radon_api :=
  RadonApi (fun _ => Raise (s2l "boom")) (fun _ => Ok 1%Q).

Definition two_blocks : list cc_result :=
  [ CcResult (s2l "f") 3 1; CcResult (s2l "g") 12 9 ].

Definition fixed_radon : radon_api :=
  RadonApi (fun _ => Ok two_blocks) (fun _ => Ok 1%Q).




(** * Properties *)

(** ** Lines and metrics *)

Lemma len_nonneg {A : Type} (l : list A) : 0 <= len l.
Proof. unfold len. lia. Qed.

Lemma findall_count_nonneg (r : regex) (s : str) : 0 <= findall_count r s.
Proof. apply len_nonneg. Qed.

(** A line is of exactly one of the three kinds. *)
Lemma line_kind_exclusive (line : str) :
  (is_code line = true /\ is_comment line = false /\ is_blank line = false)
  \/ (is_code line = false /\ is_comment line = true /\ is_blank line = false)
  \/ (is_code line = false /\ is_comment line = false /\ is_blank line = true).
Proof.
  unfold is_code, is_blank, is_comment.
  destruct (strip line) as [|a l] eqn:E.
  - right; right; auto.
  - destruct (startswith (a :: l) (s2l "#")); simpl; auto.
Qed.

Lemma line_kinds_count (lines : list str) :
  len lines
  = len (filter is_code lines) + len (filter is_comment lines)
    + len (filter is_blank lines).
Proof.
  unfold len.
  induction lines as [|line lines IH]; simpl; [reflexivity|].
  destruct (line_kind_exclusive line)
    as [(Hc & Hm & Hb)|[(Hc & Hm & Hb)|(Hc & Hm & Hb)]];
    rewrite Hc, Hm, Hb; simpl length; lia.
Qed.

(** The optional complexity figures leave the seven counts alone. *)
Lemma add_radon_metrics_counts radon content m :
  let m' := add_radon_metrics radon content m in
  total_lines m' = total_lines m /\ code_lines m' = code_lines m
  /\ comment_lines m' = comment_lines m /\ blank_lines m' = blank_lines m
  /\ functions_count m' = functions_count m
  /\ classes_count m' = classes_count m
  /\ imports_count m' = imports_count m.
Proof.
  unfold add_radon_metrics.
  destruct radon as [api|]; [|simpl; tauto].
  destruct (cc_visit api content) as [[|x xs]|e]; try (simpl; tauto);
    destruct (mi_visit api content) as [mi|e]; try (simpl; tauto);
    destruct (Qeq_bool mi 0); simpl; tauto.
Qed.

(** C10. For every input text the line classification of the metrics
    calculator is a partition: each line is a code line, a comment line or a
    blank line and never two of these, so that [total_lines] is the sum of
    [code_lines], [comment_lines] and [blank_lines]. *)
Theorem metrics_lines_partition :
  forall (radon : option radon_api) (content : str),
    let m := _calculate_code_metrics radon content in
    total_lines m = code_lines m + comment_lines m + blank_lines m
    /\ code_lines m = len (filter is_code (split_nl content))
    /\ comment_lines m = len (filter is_comment (split_nl content))
    /\ blank_lines m = len (filter is_blank (split_nl content))
    /\ total_lines m = len (split_nl content)
    /\ forall line : str,
         (is_code line = true /\ is_comment line = false
          /\ is_blank line = false)
         \/ (is_code line = false /\ is_comment line = true
             /\ is_blank line = false)
         \/ (is_code line = false /\ is_comment line = false
             /\ is_blank line = true).
Proof.
  intros radon content m.
  unfold m, _calculate_code_metrics.
  match goal with
  | |- context [add_radon_metrics radon content ?m0] =>
      destruct (add_radon_metrics_counts radon content m0)
        as (Ht & Hc & Hm & Hb & _)
  end.
  cbv zeta in *. rewrite Ht, Hc, Hm, Hb. simpl.
  repeat split; try reflexivity.
  - apply line_kinds_count.
  - apply line_kind_exclusive.
Qed.

Lemma split_by_nonempty (sep : ascii -> bool) (s : str) :
  (1 <= length (split_by sep s))%nat.
Proof.
  induction s as [|c t IH]; simpl; [lia|].
  destruct (sep c); simpl; [lia|].
  destruct (split_by sep t); simpl in *; lia.
Qed.

(** ** The debt scorer *)

Lemma fold_left_counter_ge {A : Type} (f : Z -> A -> Z) :
  (forall acc x, acc <= f acc x) ->
  forall (l : list A) (a : Z), a <= fold_left f l a.
Proof.
  intros Hf l; induction l as [|x l IH]; intros a; simpl; [lia|].
  specialize (IH (f a x)). specialize (Hf a x). lia.
Qed.

Lemma _detect_code_duplication_nonneg (content : str) :
  0 <= _detect_code_duplication content.
Proof.
  unfold _detect_code_duplication.
  apply Z.div_pos; [|lia].
  apply fold_left_counter_ge.
  intros acc line.
  destruct (len line >? 20); [|lia].
  destruct (list_count line _ >? 1); lia.
Qed.

Lemma _count_deep_nesting_nonneg (content : str) :
  0 <= _count_deep_nesting content.
Proof.
  unfold _count_deep_nesting.
  apply fold_left_counter_ge.
  intros acc line. cbv zeta.
  destruct (_ >? 4); lia.
Qed.

Lemma overall_score_bounds (content : str) :
  0 <= overall_score (_calculate_technical_debt content) <= 100.
Proof.
  unfold _calculate_technical_debt; simpl.
  pose proof (findall_count_nonneg todo_re content).
  pose proof (findall_count_nonneg (long_def false 20) content).
  pose proof (findall_count_nonneg magic_re content).
  pose proof (_detect_code_duplication_nonneg content).
  pose proof (_count_deep_nesting_nonneg content).
  lia.
Qed.

(** C1. For every input text the overall debt score is
    [min(100, todo*5 + duplication*10 + long_functions*8 + magic_numbers*2
    + deep_nesting*15)] of the five indicator counts, lies between 0 and 100,
    and the rating is fixed by the score: below 20 LOW, from 20 and below 50
    MEDIUM (so exactly 20 is MEDIUM), from 50 and below 80 HIGH, from 80 on
    CRITICAL. *)
Theorem debt_score_and_rating :
  forall content : str,
    let d := _calculate_technical_debt content in
    let s := overall_score d in
    s = Z.min 100 (todo_comments d * 5 + code_duplication d * 10
                   + long_functions d * 8 + magic_numbers d * 2
                   + deep_nesting d * 15)
    /\ 0 <= s <= 100
    /\ (s < 20 -> assessment d = "LOW"%string)
    /\ (20 <= s < 50 -> assessment d = "MEDIUM"%string)
    /\ (50 <= s < 80 -> assessment d = "HIGH"%string)
    /\ (80 <= s -> assessment d = "CRITICAL"%string).
Proof.
  intros content d s.
  split; [reflexivity|].
  split; [apply overall_score_bounds|].
  assert (Ha : assessment d = _assess_debt_level s) by reflexivity.
  rewrite Ha. unfold _assess_debt_level.
  repeat split; intros H;
    destruct (s <? 20) eqn:E1; destruct (s <? 50) eqn:E2;
    destruct (s <? 80) eqn:E3; try reflexivity; exfalso;
    rewrite ?Z.ltb_lt, ?Z.ltb_ge in *; lia.
Qed.

(** Four deferred-work markers and nothing else: the score is exactly 20
    and the rating MEDIUM. *)
Lemma debt_score_and_rating_witness :
  let content :=
    joinlines ["# TODO a"; "# FIXME b"; "# hack c"; "# todo d"]%string in
  overall_score (_calculate_technical_debt content) = 20
  /\ assessment (_calculate_technical_debt content) = "MEDIUM"%string.
Proof.
  intros content.
  destruct (debt_score_and_rating content) as (Hs & _ & _ & Hm & _).
  assert (H20 : overall_score (_calculate_technical_debt content) = 20)
    by (rewrite Hs; vm_compute; reflexivity).
  split; [exact H20|].
  apply Hm. rewrite H20. lia.
Defined.

(** ** Empty content *)

(** C9, as the code has it. For empty content the metrics report one line,
    which is blank ([''.split('\n')] is [['']]): [total_lines] and
    [blank_lines] are 1, the code, comment, function, class and import
    counts are 0, every debt indicator count is 0, the overall debt score
    is 0 and the rating is LOW.  No content has fewer than one line. *)
Theorem empty_content_report :
  forall radon : option radon_api,
    let m := _calculate_code_metrics radon [] in
    let d := _calculate_technical_debt [] in
    total_lines m = 1 /\ blank_lines m = 1
    /\ code_lines m = 0 /\ comment_lines m = 0
    /\ functions_count m = 0 /\ classes_count m = 0 /\ imports_count m = 0
    /\ todo_comments d = 0 /\ code_duplication d = 0 /\ long_functions d = 0
    /\ magic_numbers d = 0 /\ deep_nesting d = 0
    /\ overall_score d = 0 /\ assessment d = "LOW"%string
    /\ forall content : str,
         1 <= total_lines (_calculate_code_metrics radon content).
Proof.
  intros radon m d.
  unfold m, _calculate_code_metrics.
  match goal with
  | |- context [add_radon_metrics radon [] ?m0] =>
      destruct (add_radon_metrics_counts radon [] m0)
        as (Ht & Hc & Hm & Hb & Hf & Hk & Hi)
  end.
  cbv zeta in *. rewrite Ht, Hc, Hm, Hb, Hf, Hk, Hi.
  do 14 (split; [vm_compute; reflexivity|]).
  intros content.
  match goal with
  | |- context [add_radon_metrics radon content ?m0] =>
      destruct (add_radon_metrics_counts radon content m0) as (Ht' & _)
  end.
  cbv zeta in Ht'. rewrite Ht'. simpl. unfold len, split_nl.
  pose proof (split_by_nonempty is_nl content). lia.
Qed.

(** C9 as stated fails: the line count of the empty content is not 0. *)
Lemma empty_content_total_lines_not_zero :
  total_lines (_calculate_code_metrics None []) <> 0
  /\ blank_lines (_calculate_code_metrics None []) <> 0.
Proof. vm_compute. split; discriminate. Qed.

(** ** The matcher only moves forward *)

Lemma reach_refl (c : cursor) : reach c c.
Proof. split; lia. Qed.

Lemma reach_trans (a b c : cursor) : reach a b -> reach b c -> reach a c.
Proof. unfold reach; intros [? ?] [? ?]; split; lia. Qed.

Section MatcherFacts.
Context {A : Type}.

Lemma rep_min_forward (body : cursor -> @cont A -> option A) :
  forward body -> forall n, forward (rep_min body n).
Proof.
  intros Hb n; induction n as [|n IH]; intros c k x H; simpl in H.
  - exists c; split; [apply reach_refl | exact H].
  - apply Hb in H as (c1 & R1 & H1).
    apply IH in H1 as (c2 & R2 & H2).
    exists c2; split; [eapply reach_trans; eauto | exact H2].
Qed.

Lemma rep_loop_forward (body : cursor -> @cont A -> option A) g :
  forward body -> forall fuel, forward (rep_loop body g fuel).
Proof.
  intros Hb fuel; induction fuel as [|f IH]; intros c k x H; simpl in H.
  - exists c; split; [apply reach_refl | exact H].
  - assert (Hiter : forall y,
               body c (fun c' => if (pos c <? pos c')%nat
                                 then rep_loop body g f c' k else None)
               = Some y ->
               exists c', reach c c' /\ k c' = Some y).
    { intros y Hy. apply Hb in Hy as (c1 & R1 & H1).
      destruct (pos c <? pos c1)%nat; [|discriminate].
      apply IH in H1 as (c2 & R2 & H2).
      exists c2; split; [eapply reach_trans; eauto | exact H2]. }
    destruct g.
    + destruct (body c _) as [y|] eqn:E.
      * apply Hiter; exact H.
      * exists c; split; [apply reach_refl | exact H].
    + destruct (k c) as [y|] eqn:E.
      * inversion H; subst y.
        exists c; split; [apply reach_refl | exact E].
      * apply Hiter; exact H.
Qed.

Lemma rmatch_forward (r : regex) : forward (A := A) (rmatch r).
Proof.
  induction r as [|p| |r1 IH1 r2 IH2|r1 IH1 r2 IH2|lo g r IH];
    intros c k x H; cbn [rmatch] in H.
  - exists c; split; [apply reach_refl | exact H].
  - destruct (rest c) as [|a t] eqn:E; [discriminate|].
    destruct (p a); [|discriminate].
    eexists; split; [|exact H].
    unfold reach; simpl; rewrite E; simpl; lia.
  - destruct (at_boundary c); [|discriminate].
    exists c; split; [apply reach_refl | exact H].
  - apply IH1 in H as (c1 & R1 & H1).
    apply IH2 in H1 as (c2 & R2 & H2).
    exists c2; split; [eapply reach_trans; eauto | exact H2].
  - destruct (rmatch r1 c k) as [y|] eqn:E.
    + inversion H; subst y. apply IH1; exact E.
    + apply IH2; exact H.
  - apply (rep_min_forward _ IH) in H as (c1 & R1 & H1).
    apply (rep_loop_forward _ _ IH) in H1 as (c2 & R2 & H2).
    exists c2; split; [eapply reach_trans; eauto | exact H2].
Qed.
End MatcherFacts.

Lemma match_at_forward r c ma e :
  match_at r c ma = Some e ->
  reach c e /\ (ma = true -> pos e <> pos c).
Proof.
  unfold match_at; intros H.
  apply rmatch_forward in H as (c' & R & H).
  destruct ma; simpl in H.
  - destruct (pos c' =? pos c)%nat eqn:E; [discriminate|].
    inversion H; subst c'. split; [exact R|].
    intros _. apply Nat.eqb_neq; exact E.
  - inversion H; subst c'. split; [exact R | discriminate].
Qed.

(** A successful search: the match starts at or after the cursor, ends at or
    after its start, and is not the empty match at the cursor when that one
    is refused. *)
Lemma search_from_forward r s :
  forall p pv ma st e,
    search_from r p pv s ma = Some (st, e) ->
    (p <= st <= pos e)%nat
    /\ (pos e + length (rest e) = p + length s)%nat
    /\ (ma = true -> pos e = st -> p < st)%nat.
Proof.
  induction s as [|a t IH]; intros p pv ma st e H; simpl in H.
  - destruct (match_at r _ ma) as [e'|] eqn:E; [|discriminate].
    inversion H; subst st e'.
    apply match_at_forward in E as ([R1 R2] & Hm); simpl in *.
    repeat split; try lia. intros Hma He. exfalso; apply (Hm Hma); exact He.
  - destruct (match_at r _ ma) as [e'|] eqn:E.
    + inversion H; subst st e'.
      apply match_at_forward in E as ([R1 R2] & Hm); simpl in *.
      repeat split; try lia. intros Hma He. exfalso; apply (Hm Hma); exact He.
    + apply IH in H as (H1 & H2 & _). simpl.
      repeat split; lia.
Qed.

Lemma scan_sorted r :
  forall fuel c ma,
    StronglySorted span_lt (scan r fuel c ma)
    /\ Forall (fun m => (pos c <= fst m <= snd m)%nat
                        /\ (ma = true -> fst m = pos c -> pos c < snd m)%nat)
              (scan r fuel c ma).
Proof.
  induction fuel as [|f IH]; intros c ma; simpl.
  - split; constructor.
  - destruct (search r c ma) as [[st e]|] eqn:E; [|split; constructor].
    unfold search in E. apply search_from_forward in E as (H1 & H2 & H3).
    destruct (IH e (pos e =? st)%nat) as (Hs & Hf).
    split.
    + constructor; [exact Hs|].
      eapply Forall_impl; [|exact Hf].
      intros [a b] (Ha & Hb); unfold span_lt; simpl in *.
      destruct (Nat.eq_dec (pos e) st) as [Heq|Hne].
      * destruct (Nat.eq_dec a (pos e)) as [Ha'|Ha'].
        -- assert (pos e < b)%nat
             by (apply Hb; [apply Nat.eqb_eq; exact Heq | exact Ha']).
           lia.
        -- lia.
      * lia.
    + constructor.
      * simpl. split; [lia|]. intros Hma Hst.
        destruct (Nat.eq_dec (pos e) st) as [He|He];
          [specialize (H3 Hma He); lia | lia].
      * eapply Forall_impl; [|exact Hf].
        intros [a b] (Ha & Hb); simpl in *. split; [lia|]. intros _ Hab.
        assert (He : (pos e =? st)%nat = true) by (apply Nat.eqb_eq; lia).
        specialize (Hb He ltac:(lia)). lia.
Qed.

(** The spans of [finditer] come left to right, without overlap and without
    repetition. *)
Lemma finditer_sorted (r : regex) (s : str) :
  StronglySorted span_lt (finditer r s).
Proof. apply scan_sorted. Qed.

(** The fuel of [finditer] never runs out: any larger amount finds the same
    matches. *)
Lemma scan_fuel_irrelevant r :
  forall f1 f2 c ma,
    (scan_measure c ma <= f1)%nat -> (scan_measure c ma <= f2)%nat ->
    scan r f1 c ma = scan r f2 c ma.
Proof.
  induction f1 as [|f1 IH]; intros f2 c ma H1 H2.
  - unfold scan_measure in H1; destruct ma; lia.
  - destruct f2 as [|f2]; [unfold scan_measure in H2; destruct ma; lia|].
    simpl. destruct (search r c ma) as [[st e]|] eqn:E; [|reflexivity].
    f_equal.
    unfold search in E. apply search_from_forward in E as (Ha & Hb & Hc).
    assert (Hm : (scan_measure e (pos e =? st)%nat < scan_measure c ma)%nat).
    { unfold scan_measure.
      destruct (pos e =? st)%nat eqn:Ee.
      - apply Nat.eqb_eq in Ee. destruct ma.
        + specialize (Hc eq_refl Ee). lia.
        + lia.
      - apply Nat.eqb_neq in Ee. destruct ma; lia. }
    apply IH; lia.
Qed.

Lemma finditer_fuel_enough (r : regex) (s : str) (fuel : nat) :
  (2 * length s + 2 <= fuel)%nat ->
  scan r fuel (start_of s) false = finditer r s.
Proof.
  intros H. unfold finditer.
  apply scan_fuel_irrelevant; unfold scan_measure; simpl; lia.
Qed.

(** ** The pattern scanner *)

Lemma count_nl_firstn_mono (s : str) :
  forall a b, (a <= b)%nat ->
              (count_nl (firstn a s) <= count_nl (firstn b s))%nat.
Proof.
  unfold count_nl.
  induction s as [|c t IH]; intros a b Hab.
  - rewrite !firstn_nil. lia.
  - destruct a as [|a]; [simpl; lia|].
    destruct b as [|b]; [lia|].
    simpl. specialize (IH a b ltac:(lia)).
    destruct (is_nl c); simpl; lia.
Qed.

Lemma line_of_mono (s : str) (a b : nat * nat) :
  span_lt a b -> line_of s a <= line_of s b.
Proof.
  intros (H1 & H2 & H3 & H4). unfold line_of.
  pose proof (count_nl_firstn_mono s (fst a) (fst b) ltac:(lia)). lia.
Qed.

Lemma StronglySorted_map {A B : Type} (R : A -> A -> Prop)
      (R' : B -> B -> Prop) (f : A -> B) :
  (forall x y, R x y -> R' (f x) (f y)) ->
  forall l, StronglySorted R l -> StronglySorted R' (map f l).
Proof.
  intros Hf l H; induction H as [|x l Hs IH Hx]; simpl; constructor.
  - exact IH.
  - rewrite Forall_map. eapply Forall_impl; [|exact Hx].
    intros y Hy; apply Hf; exact Hy.
Qed.

Section ByRule.
Context {B : Type}.
Variable name : B -> string.
Variable mk : rule -> nat * nat -> B.
Variable occurrences : rule -> list (nat * nat).
Hypothesis name_mk : forall r m, name (mk r m) = rule_name r.

Lemma filter_reports_same r r' :
  rule_name r' = rule_name r ->
  filter (fun b => String.eqb (name b) (rule_name r))
         (map (mk r') (occurrences r'))
  = map (mk r') (occurrences r').
Proof.
  intros E. induction (occurrences r') as [|m l IH]; simpl; [reflexivity|].
  rewrite name_mk, E, String.eqb_refl, IH. reflexivity.
Qed.

Lemma filter_reports_other r r' :
  rule_name r' <> rule_name r ->
  filter (fun b => String.eqb (name b) (rule_name r))
         (map (mk r') (occurrences r')) = [].
Proof.
  intros E. induction (occurrences r') as [|m l IH]; simpl; [reflexivity|].
  rewrite name_mk.
  destruct (String.eqb_spec (rule_name r') (rule_name r)); [tauto|exact IH].
Qed.

Lemma filter_reports_absent r rs :
  ~ In (rule_name r) (map rule_name rs) ->
  filter (fun b => String.eqb (name b) (rule_name r))
         (flat_map (fun r' => map (mk r') (occurrences r')) rs) = [].
Proof.
  induction rs as [|r0 rs IH]; simpl; intros H; [reflexivity|].
  rewrite filter_app, filter_reports_other, IH; auto.
Qed.

(** In the output of a scan, the reports that carry the name of a rule
    are the occurrences of that rule, in order. *)
Lemma filter_reports_of_rule r rs :
  NoDup (map rule_name rs) -> In r rs ->
  filter (fun b => String.eqb (name b) (rule_name r))
         (flat_map (fun r' => map (mk r') (occurrences r')) rs)
  = map (mk r) (occurrences r).
Proof.
  induction rs as [|r0 rs IH]; simpl; intros Hnd Hin; [tauto|].
  inversion Hnd as [|? ? Hnot Hnd']; subst.
  rewrite filter_app.
  destruct Hin as [->|Hin].
  - rewrite filter_reports_same by reflexivity.
    rewrite filter_reports_absent by exact Hnot.
    apply app_nil_r.
  - rewrite filter_reports_other.
    + simpl. apply IH; assumption.
    + intros E. apply Hnot. rewrite E. apply in_map; exact Hin.
Qed.
End ByRule.

Lemma vulnerability_names_distinct :
  NoDup (map rule_name vulnerability_patterns).
Proof.
  simpl. repeat constructor; simpl; intuition discriminate.
Qed.

Lemma performance_names_distinct :
  NoDup (map rule_name performance_patterns).
Proof.
  simpl. repeat constructor; simpl; intuition discriminate.
Qed.

(** C3, as the code has it. The scanner runs [finditer] over the whole text,
    rule by rule: for every text and every rule, the reports that carry the
    rule's name are one per occurrence found by [finditer], in the order
    found; the occurrences of one rule come left to right and do not
    overlap, and the line numbers of its reports never decrease.  Nothing
    limits a line to one report of a rule. *)
Theorem scanner_reports_each_occurrence :
  forall (content : str) (r : rule),
    StronglySorted span_lt (finditer (rule_pattern r) content)
    /\ (In r vulnerability_patterns ->
        let out := filter (fun v => String.eqb (v_name v) (rule_name r))
                          (_scan_security_vulnerabilities content) in
        out = map (vulnerability_of content r)
                  (finditer (rule_pattern r) content)
        /\ StronglySorted Z.le (map v_line_number out))
    /\ (In r performance_patterns ->
        let out := filter (fun p => String.eqb (p_name p) (rule_name r))
                          (_analyze_performance_patterns content) in
        out = map (performance_issue_of content r)
                  (finditer (rule_pattern r) content)
        /\ StronglySorted Z.le (map p_line_number out)).
Proof.
  intros content r.
  pose proof (finditer_sorted (rule_pattern r) content) as Hs.
  assert (Hl : StronglySorted Z.le
                 (map (line_of content) (finditer (rule_pattern r) content))).
  { eapply StronglySorted_map; [|exact Hs]. apply line_of_mono. }
  split; [exact Hs|]. split; intros Hin out.
  - assert (E : out = map (vulnerability_of content r)
                          (finditer (rule_pattern r) content)).
    { unfold out, _scan_security_vulnerabilities.
      apply (filter_reports_of_rule v_name (vulnerability_of content)
               (fun r' => finditer (rule_pattern r') content)).
      - reflexivity.
      - exact vulnerability_names_distinct.
      - exact Hin. }
    split; [exact E|]. rewrite E, map_map. exact Hl.
  - assert (E : out = map (performance_issue_of content r)
                          (finditer (rule_pattern r) content)).
    { unfold out, _analyze_performance_patterns.
      apply (filter_reports_of_rule p_name (performance_issue_of content)
               (fun r' => finditer (rule_pattern r') content)).
      - reflexivity.
      - exact performance_names_distinct.
      - exact Hin. }
    split; [exact E|]. rewrite E, map_map. exact Hl.
Qed.

Lemma scanner_reports_each_occurrence_witness :
  let content := s2l "x = Math.random() + Math.random()" in
  In insecure_random_rule vulnerability_patterns
  /\ map v_line_number
         (filter (fun v => String.eqb (v_name v) "Insecure Random")
                 (_scan_security_vulnerabilities content))
     = [1; 1].
Proof.
  intros content.
  assert (Hin : In insecure_random_rule vulnerability_patterns)
    by (simpl; auto 6).
  split; [exact Hin|].
  destruct (scanner_reports_each_occurrence content insecure_random_rule)
    as (_ & Hv & _).
  destruct (Hv Hin) as [E _]. simpl rule_name in E.
  rewrite E. vm_compute. reflexivity.
Defined.

(** C3 as stated fails: one line with the pattern of a rule twice gets two
    reports of that rule, both with the line number of that line. *)
Lemma one_line_two_reports_of_one_rule :
  let out := _scan_security_vulnerabilities
               (s2l "x = Math.random() + Math.random()") in
  map (fun v => (v_name v, v_line_number v)) out
  = [("Insecure Random"%string, 1); ("Insecure Random"%string, 1)]
  /\ ~ NoDup (map (fun v => (v_name v, v_line_number v)) out).
Proof.
  intros out.
  assert (E : map (fun v => (v_name v, v_line_number v)) out
              = [("Insecure Random"%string, 1); ("Insecure Random"%string, 1)])
    by (vm_compute; reflexivity).
  split; [exact E|].
  rewrite E. intros H. inversion H as [|? ? Hnot _]; subst.
  apply Hnot. left. reflexivity.
Qed.

(** ** The project security assessment *)

Lemma fold_left_snoc_map {A B : Type} (g : A -> B) (l : list A) :
  forall acc, fold_left (fun acc x => acc ++ [g x]) l acc = acc ++ map g l.
Proof.
  induction l as [|x l IH]; intros acc; simpl.
  - symmetry; apply app_nil_r.
  - rewrite IH, <- app_assoc. reflexivity.
Qed.

Lemma fold_left_extend {A B : Type} (step : list B -> A -> list B)
      (h : A -> list B) :
  (forall acc x, step acc x = acc ++ h x) ->
  forall l acc, fold_left step l acc = acc ++ flat_map h l.
Proof.
  intros Hs l; induction l as [|x l IH]; intros acc; simpl.
  - symmetry; apply app_nil_r.
  - rewrite IH, Hs, <- app_assoc. reflexivity.
Qed.

Lemma collect_security_issues_order (files : project_data) :
  collect_security_issues files = security_issues_in_discovery_order files.
Proof.
  unfold collect_security_issues, security_issues_in_discovery_order.
  rewrite fold_left_extend with
    (h := fun f =>
            if truthy (content_of f)
            then map (v_set_file (get_or (fi_name f) (s2l "unknown")))
                     (_scan_security_vulnerabilities (content_of f))
            else []).
  - reflexivity.
  - intros acc f. cbv zeta. destruct (truthy (content_of f)).
    + apply fold_left_snoc_map.
    + symmetry; apply app_nil_r.
Qed.

Lemma collect_performance_issues_order (files : project_data) :
  collect_performance_issues files
  = performance_issues_in_discovery_order files.
Proof.
  unfold collect_performance_issues, performance_issues_in_discovery_order.
  rewrite fold_left_extend with
    (h := fun f =>
            if truthy (content_of f)
            then map (p_set_file (get_or (fi_name f) (s2l "unknown")))
                     (_analyze_performance_patterns (content_of f))
            else []).
  - reflexivity.
  - intros acc f. cbv zeta. destruct (truthy (content_of f)).
    + apply fold_left_snoc_map.
    + symmetry; apply app_nil_r.
Qed.

Lemma _rate_security_buckets (score : Z) :
  (90 <= score -> _rate_security score = "Excellent"%string)
  /\ (70 <= score < 90 -> _rate_security score = "Good"%string)
  /\ (50 <= score < 70 -> _rate_security score = "Fair"%string)
  /\ (score < 50 -> _rate_security score = "Poor"%string).
Proof.
  unfold _rate_security.
  repeat split; intros H;
    destruct (score >=? 90) eqn:E1; destruct (score >=? 70) eqn:E2;
    destruct (score >=? 50) eqn:E3; try reflexivity; exfalso;
    rewrite ?Z.geb_leb, ?Z.leb_le, ?Z.leb_gt in *; lia.
Qed.

(** C4. For every collection of file entries, the security score is
    [max(0, 100 - (high*20 + medium*10 + low*5))] over the counts of issues
    of each severity, the rating is Excellent from 90, Good from 70, Fair
    from 50 and Poor below, and the top issues are the first five issues in
    the order of discovery, whatever their severity. *)
Theorem security_assessment_score_rating_top :
  forall files : project_data,
    let a := _assess_project_security files in
    let issues := security_issues_in_discovery_order files in
    let high := severity_count "HIGH" issues in
    let medium := severity_count "MEDIUM" issues in
    let low := severity_count "LOW" issues in
    sa_high_severity_issues a = high
    /\ sa_medium_severity_issues a = medium
    /\ sa_low_severity_issues a = low
    /\ sa_security_score a
       = Z.max 0 (100 - (high * 20 + medium * 10 + low * 5))
    /\ (90 <= sa_security_score a ->
        sa_security_rating a = "Excellent"%string)
    /\ (70 <= sa_security_score a < 90 ->
        sa_security_rating a = "Good"%string)
    /\ (50 <= sa_security_score a < 70 ->
        sa_security_rating a = "Fair"%string)
    /\ (sa_security_score a < 50 -> sa_security_rating a = "Poor"%string)
    /\ sa_top_issues a = firstn 5 issues.
Proof.
  intros files a issues high medium low.
  unfold a, _assess_project_security.
  rewrite collect_security_issues_order.
  fold issues. cbv zeta. simpl.
  unfold severity_is. fold (severity_count "HIGH" issues).
  fold (severity_count "MEDIUM" issues). fold (severity_count "LOW" issues).
  fold high. fold medium. fold low.
  do 4 (split; [reflexivity|]).
  destruct (_rate_security_buckets
              (Z.max 0 (100 - (high * 20 + medium * 10 + low * 5))))
    as (H1 & H2 & H3 & H4).
  repeat split; assumption.
Qed.

(** A LOW issue in the first file and a HIGH one in the second: the score
    is 75, the rating Good, and the LOW issue stays first. *)
Lemma security_assessment_score_rating_top_witness :
  let files :=
    [ FileInfo (Some (s2l "a.js")) (Some (s2l "x = Math.random()"));
      FileInfo (Some (s2l "b.py")) (Some (s2l "password = 'abc123'")) ] in
  sa_security_score (_assess_project_security files) = 75
  /\ sa_security_rating (_assess_project_security files) = "Good"%string
  /\ map v_severity (sa_top_issues (_assess_project_security files))
     = ["LOW"; "HIGH"]%string.
Proof.
  intros files.
  destruct (security_assessment_score_rating_top files)
    as (_ & _ & _ & Hs & _ & Hg & _ & _ & Ht).
  assert (H75 : sa_security_score (_assess_project_security files) = 75)
    by (rewrite Hs; vm_compute; reflexivity).
  split; [exact H75|]. split.
  - apply Hg. rewrite H75. lia.
  - rewrite Ht. vm_compute. reflexivity.
Defined.

(** ** Recommendations *)

Lemma overview_fold_total (files : project_data) :
  forall (lc : list (string * Z)) (t : Z),
    snd (fold_left
           (fun '(language_count, total_lines) f =>
              (dict_incr language_count (_detect_file_type (name_of f)),
               total_lines + len (split_nl (content_of f))))
           files (lc, t))
    = t + total_line_count files.
Proof.
  induction files as [|f files IH]; intros lc t; simpl.
  - lia.
  - rewrite IH. lia.
Qed.

Lemma overview_project_size (files : project_data) :
  project_size (_analyze_project_overview files)
  = _categorize_project_size (total_line_count files).
Proof.
  unfold _analyze_project_overview.
  pose proof (overview_fold_total files [] 0) as H.
  destruct (fold_left _ files ([], 0)) as [lc t]. simpl in *.
  rewrite H. reflexivity.
Qed.

Lemma project_size_large (n : Z) :
  String.eqb (_categorize_project_size n) "Large"
  || String.eqb (_categorize_project_size n) "Very Large"
  = (10000 <=? n).
Proof.
  unfold _categorize_project_size.
  destruct (n <? 1000) eqn:E1; destruct (n <? 10000) eqn:E2;
    destruct (n <? 100000) eqn:E3; simpl;
    destruct (10000 <=? n) eqn:E4; try reflexivity; exfalso;
    rewrite ?Z.ltb_lt, ?Z.ltb_ge, ?Z.leb_le, ?Z.leb_gt in *; lia.
Qed.

Lemma rule_categories (h c l : Z) :
  map rec_category (recommendation_rules h c l)
  = (if 0 <? h then ["Security"%string] else [])
    ++ (if 0 <? c then ["Performance"%string] else [])
    ++ (if 10000 <=? l then ["Architecture"%string] else [])
    ++ ["Testing"%string; "Documentation"%string].
Proof.
  unfold recommendation_rules.
  destruct (0 <? h); destruct (0 <? c); destruct (10000 <=? l); reflexivity.
Qed.

Lemma in_rules_security (h c l : Z) :
  In (security_recommendation h) (recommendation_rules h c l) <-> 0 < h.
Proof.
  split; intros H.
  - destruct (0 <? h) eqn:E; [apply Z.ltb_lt; exact E|].
    apply (in_map rec_category) in H. rewrite rule_categories, E in H.
    simpl rec_category in H. absurd_category H.
  - unfold recommendation_rules. apply Z.ltb_lt in H. rewrite H.
    left; reflexivity.
Qed.

Lemma in_rules_performance (h c l : Z) :
  In (performance_recommendation c) (recommendation_rules h c l) <-> 0 < c.
Proof.
  split; intros H.
  - destruct (0 <? c) eqn:E; [apply Z.ltb_lt; exact E|].
    apply (in_map rec_category) in H. rewrite rule_categories, E in H.
    simpl rec_category in H. absurd_category H.
  - unfold recommendation_rules. apply Z.ltb_lt in H. rewrite H.
    apply in_or_app; right. left; reflexivity.
Qed.

Lemma in_rules_modularization (h c l : Z) :
  In modularization_recommendation (recommendation_rules h c l)
  <-> 10000 <= l.
Proof.
  split; intros H.
  - destruct (10000 <=? l) eqn:E; [apply Z.leb_le; exact E|].
    apply (in_map rec_category) in H. rewrite rule_categories, E in H.
    simpl rec_category in H. absurd_category H.
  - unfold recommendation_rules. apply Z.leb_le in H. rewrite H.
    apply in_or_app; right. apply in_or_app; right. left; reflexivity.
Qed.

Lemma recommendation_rules_length (h c l : Z) :
  (length (recommendation_rules h c l) <= 5)%nat.
Proof.
  unfold recommendation_rules.
  destruct (0 <? h); destruct (0 <? c); destruct (10000 <=? l);
    simpl; lia.
Qed.

Lemma _generate_project_recommendations_rules (files : project_data) :
  _generate_project_recommendations files
  = recommendation_rules
      (severity_count "HIGH" (security_issues_in_discovery_order files))
      (critical_count (performance_issues_in_discovery_order files))
      (total_line_count files).
Proof.
  unfold _generate_project_recommendations. cbv zeta.
  rewrite overview_project_size, project_size_large.
  unfold _assess_project_security, _analyze_project_performance.
  rewrite collect_security_issues_order, collect_performance_issues_order.
  cbv zeta. simpl sa_high_severity_issues. simpl pa_critical_issues.
  unfold severity_is.
  fold (severity_count "HIGH" (security_issues_in_discovery_order files)).
  fold (critical_count (performance_issues_in_discovery_order files)).
  set (high := severity_count _ _). set (critical := critical_count _).
  rewrite !Z.gtb_ltb.
  pose proof (recommendation_rules_length high critical
                (total_line_count files)) as Hlen.
  unfold recommendation_rules in *.
  destruct (0 <? high); destruct (0 <? critical);
    destruct (10000 <=? total_line_count files); reflexivity.
Qed.

(** C5, as the code has it. The recommendations are a fixed rule list in
    this order: a HIGH-priority security item when the number of
    HIGH-severity security issues is positive; a MEDIUM-priority performance
    item when the number of HIGH-severity performance issues is positive; a
    MEDIUM-priority modularization item when the project size is Large or
    Very Large (10000 lines or more); then always the testing and the
    documentation recommendation.  The list has at most five entries, so the
    cut at ten removes nothing. *)
Theorem recommendations_follow_rule_list :
  forall files : project_data,
    let recs := _generate_project_recommendations files in
    let high :=
      severity_count "HIGH" (security_issues_in_discovery_order files) in
    let critical :=
      critical_count (performance_issues_in_discovery_order files) in
    recs = recommendation_rules high critical (total_line_count files)
    /\ (length recs <= 5)%nat
    /\ (0 < high <-> In (security_recommendation high) recs)
    /\ (0 < critical <-> In (performance_recommendation critical) recs)
    /\ (10000 <= total_line_count files <->
        In modularization_recommendation recs)
    /\ rec_priority (security_recommendation high) = "HIGH"%string
    /\ rec_priority (performance_recommendation critical) = "MEDIUM"%string
    /\ rec_priority modularization_recommendation = "MEDIUM"%string
    /\ exists front,
         recs = front ++ [testing_recommendation;
                          documentation_recommendation].
Proof.
  intros files recs high critical.
  assert (E : recs
              = recommendation_rules high critical (total_line_count files))
    by apply _generate_project_recommendations_rules.
  rewrite E.
  split; [reflexivity|].
  split; [apply recommendation_rules_length|].
  split; [symmetry; apply in_rules_security|].
  split; [symmetry; apply in_rules_performance|].
  split; [symmetry; apply in_rules_modularization|].
  do 3 (split; [reflexivity|]).
  unfold recommendation_rules.
  eexists. rewrite !app_assoc. reflexivity.
Qed.

(** One HIGH-severity security issue: the security item comes first. *)
Lemma recommendations_follow_rule_list_witness :
  let files :=
    [ FileInfo (Some (s2l "b.py")) (Some (s2l "password = 'abc123'")) ] in
  severity_count "HIGH" (security_issues_in_discovery_order files) = 1
  /\ In (security_recommendation 1) (_generate_project_recommendations files)
  /\ map rec_category (_generate_project_recommendations files)
     = ["Security"; "Testing"; "Documentation"]%string.
Proof.
  intros files.
  destruct (recommendations_follow_rule_list files)
    as (E & _ & (Hs & _) & _).
  assert (H1 : severity_count "HIGH"
                 (security_issues_in_discovery_order files) = 1)
    by (vm_compute; reflexivity).
  rewrite H1 in *.
  split; [reflexivity|]. split.
  - apply Hs. lia.
  - rewrite E. vm_compute. reflexivity.
Defined.

(** No rule of the performance registry has severity HIGH, so the count
    behind the performance item is always 0. *)
Lemma performance_issue_never_high (content : str) (p : performance_issue) :
  In p (_analyze_performance_patterns content) ->
  String.eqb (p_severity p) "HIGH" = false.
Proof.
  unfold _analyze_performance_patterns. rewrite in_flat_map.
  intros (r & Hr & Hp). rewrite in_map_iff in Hp.
  destruct Hp as (m & <- & _). simpl p_severity.
  unfold performance_patterns, _load_performance_patterns in Hr.
  destruct Hr as [<-|[<-|[<-|[]]]]; reflexivity.
Qed.

Lemma filter_none {A : Type} (p : A -> bool) (l : list A) :
  (forall x, In x l -> p x = false) -> filter p l = [].
Proof.
  induction l as [|x l IH]; intros H; simpl; [reflexivity|].
  rewrite (H x (or_introl eq_refl)). apply IH.
  intros y Hy; apply H; right; exact Hy.
Qed.

Lemma critical_count_zero (files : project_data) :
  critical_count (performance_issues_in_discovery_order files) = 0.
Proof.
  unfold critical_count.
  assert (E : filter (fun i => String.eqb (p_severity i) "HIGH")
                     (performance_issues_in_discovery_order files) = []).
  { apply filter_none. intros p Hp.
    unfold performance_issues_in_discovery_order in Hp.
    rewrite in_flat_map in Hp. destruct Hp as (f & _ & Hp).
    destruct (truthy (content_of f)); [|contradiction].
    rewrite in_map_iff in Hp. destruct Hp as (q & <- & Hq).
    simpl. exact (performance_issue_never_high _ _ Hq). }
  rewrite E. reflexivity.
Qed.

(** C5 as stated fails: a project with a security issue and a performance
    issue, neither of severity HIGH, gets neither a security item nor a
    performance item. *)
Lemma issues_present_but_no_item :
  let files :=
    [ FileInfo (Some (s2l "a.js"))
               (Some (joinlines ["x = Math.random()";
                                 "requests.get(url)"]%string)) ] in
  sa_total_issues (_assess_project_security files) = 1
  /\ pa_total_performance_issues (_analyze_project_performance files) = 1
  /\ _generate_project_recommendations files
     = [testing_recommendation; documentation_recommendation].
Proof. vm_compute. repeat split; reflexivity. Qed.

(** ** Architecture patterns *)

Lemma startswith_spec (p : str) :
  forall s, startswith s p = true <-> exists post, s = p ++ post.
Proof.
  induction p as [|a p IH]; intros s; simpl.
  - split; [intros _; exists s; reflexivity | destruct s; reflexivity].
  - destruct s as [|b s].
    + split; [discriminate | intros (post & H); discriminate].
    + cbn [startswith]. rewrite andb_true_iff, Ascii.eqb_eq, IH. split.
      * intros (-> & post & ->). exists post; reflexivity.
      * intros (post & H). inversion H; subst. split; [reflexivity|].
        exists post; reflexivity.
Qed.

Lemma str_in_spec (p : str) :
  forall s, str_in p s = true <-> exists pre post, s = pre ++ p ++ post.
Proof.
  induction s as [|b s IH].
  - change (str_in p []) with (startswith [] p || false).
    rewrite orb_false_r, startswith_spec. split.
    + intros (post & H). exists [], post; exact H.
    + intros (pre & post & H). destruct pre as [|x pre]; [|discriminate].
      exists post; exact H.
  - change (str_in p (b :: s)) with (startswith (b :: s) p || str_in p s).
    rewrite orb_true_iff, startswith_spec, IH. split.
    + intros [(post & H)|(pre & post & H)].
      * exists [], post; exact H.
      * exists (b :: pre), post; rewrite H; reflexivity.
    + intros (pre & post & H). destruct pre as [|x pre].
      * left; exists post; exact H.
      * right. inversion H; subst. exists pre, post; reflexivity.
Qed.

Lemma mentions_spec (word : string) (name : str) :
  mentions word name = true <-> contains_ignoring_case word name.
Proof. apply str_in_spec. Qed.

Lemma existsb_mentions (word : string) (names : list str) :
  existsb (mentions word) names = true <-> some_name_contains word names.
Proof.
  rewrite existsb_exists. unfold some_name_contains.
  split; intros (n & Hn & H); exists n; (split; [exact Hn|]);
    apply mentions_spec; exact H.
Qed.

(** The output is the three independent checks, each adding its entry. *)
Lemma _detect_architecture_patterns_checks (files : project_data) :
  let names := map name_of files in
  _detect_architecture_patterns files
  = (if existsb (mentions "controller") names
        && existsb (mentions "model") names
        && existsb (mentions "view") names
     then [mvc_entry] else [])
    ++ (if existsb (mentions "service") names
           && (len (filter (mentions "api") names) >? 2)
        then [microservices_entry] else [])
    ++ (if existsb (mentions "repository") names
        then [repository_entry] else []).
Proof.
  intros names. unfold _detect_architecture_patterns. fold names.
  destruct (existsb (mentions "controller") names
            && existsb (mentions "model") names
            && existsb (mentions "view") names);
    destruct (existsb (mentions "service") names
              && (len (filter (mentions "api") names) >? 2));
    destruct (existsb (mentions "repository") names); reflexivity.
Qed.

Lemma in_three_checks (b1 b2 b3 : bool) (e : architecture_pattern) :
  In e ((if b1 then [mvc_entry] else [])
        ++ (if b2 then [microservices_entry] else [])
        ++ (if b3 then [repository_entry] else []))
  <-> (b1 = true /\ e = mvc_entry) \/ (b2 = true /\ e = microservices_entry)
      \/ (b3 = true /\ e = repository_entry).
Proof.
  destruct b1, b2, b3; simpl; intuition (auto; discriminate).
Qed.

(** C6. Architecture inference looks at file names only and makes three
    independent checks: the MVC entry, with confidence 0.8, is produced
    exactly when some name contains controller, some contains model and some
    contains view, letter case ignored; the microservices entry, with
    confidence 0.7, exactly when some name contains service and more than
    two names contain api; the Repository entry, with confidence 0.9,
    exactly when some name contains repository.  The names
    UserController.java, UserModel.java and UserView.java give the MVC
    entry. *)
Theorem architecture_patterns_by_name :
  forall files : project_data,
    let names := map name_of files in
    let out := _detect_architecture_patterns files in
    (In mvc_entry out <->
       some_name_contains "controller" names
       /\ some_name_contains "model" names
       /\ some_name_contains "view" names)
    /\ (In microservices_entry out <->
          some_name_contains "service" names
          /\ 2 < len (filter (mentions "api") names))
    /\ (In repository_entry out <-> some_name_contains "repository" names)
    /\ (forall e, In e out ->
                  e = mvc_entry \/ e = microservices_entry
                  \/ e = repository_entry)
    /\ ap_confidence mvc_entry = 0.8%Q
    /\ ap_confidence microservices_entry = 0.7%Q
    /\ ap_confidence repository_entry = 0.9%Q
    /\ In mvc_entry
          (_detect_architecture_patterns
             [ FileInfo (Some (s2l "UserController.java")) None;
               FileInfo (Some (s2l "UserModel.java")) None;
               FileInfo (Some (s2l "UserView.java")) None ]).
Proof.
  intros files names out.
  unfold out. rewrite _detect_architecture_patterns_checks. fold names.
  split; [|split; [|split; [|split]]].
  - rewrite in_three_checks, <- !existsb_mentions. split.
    + intros [[H _]|[[_ H]|[_ H]]]; try discriminate H.
      rewrite !andb_true_iff in H. tauto.
    + intros (H1 & H2 & H3). left. rewrite H1, H2, H3. auto.
  - rewrite in_three_checks, <- existsb_mentions. split.
    + intros [[_ H]|[[H _]|[_ H]]]; try discriminate H.
      rewrite andb_true_iff, Z.gtb_ltb, Z.ltb_lt in H. exact H.
    + intros (H1 & H2). right; left.
      apply Z.ltb_lt in H2. rewrite H1, Z.gtb_ltb, H2. auto.
  - rewrite in_three_checks, <- existsb_mentions. split.
    + intros [[_ H]|[[_ H]|[H _]]]; try discriminate H. exact H.
    + intros H. right; right. rewrite H. auto.
  - intros e H. apply in_three_checks in H. tauto.
  - do 3 (split; [reflexivity|]). vm_compute. left; reflexivity.
Qed.

(** ** The file analyser never raises *)

(** C7. [analyze_code_file] always returns a report and raises nothing:
    when one of the calls it makes raises, the report holds exactly the
    error description, the path and the time of analysis; otherwise every
    call returned and the report holds all ten entries, each the result of
    its call. *)
Theorem analyze_code_file_error_or_full :
  forall (self : methods) (t_try t_except file_path content : str),
    let r := analyze_code_file self t_try t_except file_path content in
    (exists e,
        some_call_raised self file_path content e
        /\ r = [ ("error", VStr e); ("file_path", VStr file_path);
                 ("analyzed_at", VStr t_except) ]%string
        /\ keys r = error_keys)
    \/ (exists ft m ps vs pfs cx td ai,
           m_detect_file_type self file_path = Ok ft
           /\ m_calculate_code_metrics self content = Ok m
           /\ m_detect_code_patterns self content = Ok ps
           /\ m_scan_security_vulnerabilities self content = Ok vs
           /\ m_analyze_performance_patterns self content = Ok pfs
           /\ m_analyze_complexity self content = Ok cx
           /\ m_calculate_technical_debt self content = Ok td
           /\ m_generate_ai_insights self content = Ok ai
           /\ r = [ ("file_path", VStr file_path);
                    ("analyzed_at", VStr t_try);
                    ("file_type", VLabel ft);
                    ("metrics", VMetrics m);
                    ("patterns", VPatterns ps);
                    ("security_issues", VVulnerabilities vs);
                    ("performance_issues", VPerformance pfs);
                    ("complexity_analysis", VComplexity cx);
                    ("technical_debt", VDebt td);
                    ("ai_insights", VInsights ai) ]%string
           /\ keys r = full_keys).
Proof.
  intros self t_try t_except file_path content r.
  unfold r, analyze_code_file, analyze_code_file_body, some_call_raised, bind.
  destruct (m_detect_file_type self file_path) as [ft|e] eqn:E1;
    [|left; exists e; auto].
  destruct (m_calculate_code_metrics self content) as [m|e] eqn:E2;
    [|left; exists e; auto].
  destruct (m_detect_code_patterns self content) as [ps|e] eqn:E3;
    [|left; exists e; auto].
  destruct (m_scan_security_vulnerabilities self content) as [vs|e] eqn:E4;
    [|left; exists e; auto 7].
  destruct (m_analyze_performance_patterns self content) as [pfs|e] eqn:E5;
    [|left; exists e; auto 8].
  destruct (m_analyze_complexity self content) as [cx|e] eqn:E6;
    [|left; exists e; auto 9].
  destruct (m_calculate_technical_debt self content) as [td|e] eqn:E7;
    [|left; exists e; auto 10].
  destruct (m_generate_ai_insights self content) as [ai|e] eqn:E8;
    [|left; exists e; auto 11].
  right. exists ft, m, ps, vs, pfs, cx, td, ai.
  repeat split; reflexivity.
Qed.

(** With the methods of the class itself and a text as content no call
    raises, and the report is the full one. *)
Lemma analyze_code_file_on_text radon pipeline t_try t_except file_path
      content :
  keys (analyze_code_file (CodeLensAgent radon pipeline) t_try t_except
          file_path content)
  = full_keys.
Proof. reflexivity. Qed.

(** ** Matched text *)

Lemma matched_text_of_cases (g : str) :
  ((length g <= 100)%nat -> matched_text_of g = g)
  /\ ((100 < length g)%nat -> matched_text_of g = firstn 100 g ++ s2l "...")
  /\ (length (matched_text_of g) <= 103)%nat.
Proof.
  unfold matched_text_of, len.
  destruct (Z.of_nat (length g) >? 100) eqn:E;
    rewrite Z.gtb_ltb in E;
    [apply Z.ltb_lt in E | apply Z.ltb_ge in E].
  - split; [intros H; lia|]. split; [reflexivity|].
    rewrite length_app, length_firstn.
    change (length (s2l "...")) with 3%nat. lia.
  - split; [reflexivity|]. split; [intros H; lia | lia].
Qed.

(** C8, as the code has it. Every match reported by the detector of design
    patterns and anti-patterns carries the matched text itself when that has
    at most 100 characters, and otherwise its first 100 characters followed
    by three dots, so at most 103 characters.  Every security issue carries
    the whole matched code, of any length.  Performance issues carry no
    matched text. *)
Theorem matched_text_marked_or_whole :
  forall content : str,
    (forall p, In p (_detect_code_patterns content) ->
       (length (pm_matched_text p) <= 103)%nat
       /\ exists pd m,
            In pd all_patterns /\ In m (finditer (pd_pattern pd) content)
            /\ ((length (group content m) <= 100)%nat ->
                pm_matched_text p = group content m)
            /\ ((100 < length (group content m))%nat ->
                pm_matched_text p
                = firstn 100 (group content m) ++ s2l "..."))
    /\ (forall v, In v (_scan_security_vulnerabilities content) ->
          exists r m,
            In r vulnerability_patterns
            /\ In m (finditer (rule_pattern r) content)
            /\ v_matched_code v = group content m).
Proof.
  intros content. split.
  - intros p Hp. unfold _detect_code_patterns in Hp.
    rewrite in_flat_map in Hp. destruct Hp as (pd & Hpd & Hp).
    rewrite in_map_iff in Hp. destruct Hp as (m & <- & Hm).
    cbn [pm_matched_text].
    destruct (matched_text_of_cases (group content m)) as (H1 & H2 & H3).
    split; [exact H3|]. exists pd, m. auto.
  - intros v Hv. unfold _scan_security_vulnerabilities in Hv.
    rewrite in_flat_map in Hv. destruct Hv as (r & Hr & Hv).
    rewrite in_map_iff in Hv. destruct Hv as (m & <- & Hm).
    exists r, m. auto.
Qed.

Lemma matched_text_marked_or_whole_witness :
  let p := PatternMatch "Magic Numbers" "anti_pattern" 1
             (repeat (ascii_of_nat 49) 100 ++ s2l "...") in
  In p (_detect_code_patterns long_secret)
  /\ (length (pm_matched_text p) <= 103)%nat.
Proof.
  intros p.
  assert (Hin : In p (_detect_code_patterns long_secret))
    by (vm_compute; left; reflexivity).
  split; [exact Hin|].
  destruct (matched_text_marked_or_whole long_secret) as (Hp & _).
  exact (proj1 (Hp p Hin)).
Defined.

(** C8 as stated fails: on the long credential the reported anti-pattern
    text has 103 characters and the reported security code has 129. *)
Lemma matched_text_longer_than_100 :
  map (fun p => length (pm_matched_text p))
      (_detect_code_patterns long_secret) = [103%nat]
  /\ map (fun v => length (v_matched_code v))
         (_scan_security_vulnerabilities long_secret) = [129%nat]
  /\ ~ Forall (fun v => (length (v_matched_code v) <= 100)%nat)
              (_scan_security_vulnerabilities long_secret).
Proof.
  assert (E : map (fun v => length (v_matched_code v))
                  (_scan_security_vulnerabilities long_secret) = [129%nat])
    by (vm_compute; reflexivity).
  split; [vm_compute; reflexivity|]. split; [exact E|].
  intros H.
  apply (Forall_map (fun v => length (v_matched_code v))
                    (fun n => (n <= 100)%nat)) in H.
  rewrite E in H. inversion H; subst. lia.
Qed.

(** ** The quality summary *)


Lemma sum_over_cons (g : str -> Z) (f : file_info) (files : project_data) :
  sum_over g (f :: files)
  = (if truthy (content_of f) then g (content_of f) else 0)
    + sum_over g files.
Proof.
  unfold sum_over, analyzed_files. simpl.
  destruct (truthy (content_of f)); simpl; lia.
Qed.

Lemma analyzed_files_cons (f : file_info) (files : project_data) :
  len (analyzed_files (f :: files))
  = (if truthy (content_of f) then 1 else 0) + len (analyzed_files files).
Proof.
  unfold analyzed_files, len. simpl.
  destruct (truthy (content_of f)); simpl length; lia.
Qed.

(** What the loop of [_summarize_code_quality] has added up at its end. *)
Lemma summarize_fold radon (files : project_data) :
  forall (tm : total_metrics) (n : Z),
    let st := fold_left (summarize_step radon) files (tm, n) in
    tm_security_issues_count (fst st)
    = tm_security_issues_count tm + security_issue_count files
    /\ tm_performance_issues_count (fst st)
       = tm_performance_issues_count tm + performance_issue_count files
    /\ tm_technical_debt_score (fst st)
       = tm_technical_debt_score tm + debt_score_total files
    /\ tm_average_technical_debt (fst st) = tm_average_technical_debt tm
    /\ snd st = n + len (analyzed_files files).
Proof.
  unfold security_issue_count, performance_issue_count, debt_score_total.
  induction files as [|f files IH]; intros tm n.
  - simpl. unfold sum_over, analyzed_files, len. simpl. repeat split; lia.
  - cbn [fold_left]. rewrite !sum_over_cons, analyzed_files_cons.
    remember (summarize_step radon (tm, n) f) as st1 eqn:Hst.
    unfold summarize_step in Hst.
    destruct (truthy (content_of f)); subst st1;
      match goal with
      | |- context [fold_left _ files (?tm1, ?n1)] =>
          destruct (IH tm1 n1) as (H1 & H2 & H3 & H4 & H5)
      end;
      cbv zeta in *; rewrite H1, H2, H3, H4, H5;
      cbn [tm_security_issues_count tm_performance_issues_count
           tm_technical_debt_score tm_average_technical_debt];
      repeat split; lia.
Qed.

(** *** Rounding and the clamps *)














(** * Further properties *)

(** ** Matches have their least length and lie inside the text *)

Section MatcherLength.
Context {A : Type}.

Lemma rep_min_advances (body : cursor -> @cont A -> option A) (m : nat) :
  advances m body -> forall n, advances (n * m) (rep_min body n).
Proof.
  intros Hb n; induction n as [|n IH]; intros c k x H; simpl in H.
  - exists c; split; [apply reach_refl | split; [simpl; lia | exact H]].
  - apply Hb in H as (c1 & R1 & L1 & H1).
    apply IH in H1 as (c2 & R2 & L2 & H2).
    exists c2; split; [eapply reach_trans; eauto | split; [simpl; lia | exact H2]].
Qed.

Lemma forward_of_advances (body : cursor -> @cont A -> option A) (m : nat) :
  advances m body -> forward body.
Proof.
  intros Hb c k x H. apply Hb in H as (c' & R & _ & H'). eauto.
Qed.

Lemma rmatch_advances (r : regex) : advances (A := A) (min_len r) (rmatch r).
Proof.
  induction r as [|p| |r1 IH1 r2 IH2|r1 IH1 r2 IH2|lo g r IH];
    intros c k x H; cbn [rmatch] in H; cbn [min_len].
  - exists c; split; [apply reach_refl | split; [lia | exact H]].
  - destruct (rest c) as [|a t] eqn:E; [discriminate|].
    destruct (p a); [|discriminate].
    eexists; split; [|split; [|exact H]];
      [unfold reach; simpl; rewrite E; simpl; lia | simpl; lia].
  - destruct (at_boundary c); [|discriminate].
    exists c; split; [apply reach_refl | split; [lia | exact H]].
  - apply IH1 in H as (c1 & R1 & L1 & H1).
    apply IH2 in H1 as (c2 & R2 & L2 & H2).
    exists c2; split; [eapply reach_trans; eauto | split; [lia | exact H2]].
  - destruct (rmatch r1 c k) as [y|] eqn:E.
    + inversion H; subst y. apply IH1 in E as (c1 & R1 & L1 & H1).
      exists c1; split; [exact R1 | split; [lia | exact H1]].
    + apply IH2 in H as (c1 & R1 & L1 & H1).
      exists c1; split; [exact R1 | split; [lia | exact H1]].
  - apply (rep_min_advances _ _ IH) in H as (c1 & R1 & L1 & H1).
    apply (rep_loop_forward _ _ (forward_of_advances _ _ IH)) in H1
      as (c2 & R2 & H2).
    exists c2; split; [eapply reach_trans; eauto | split; [ | exact H2]].
    destruct R2 as [R2 _]. lia.
Qed.
End MatcherLength.

Lemma match_at_advances r c ma e :
  match_at r c ma = Some e -> (pos c + min_len r <= pos e)%nat.
Proof.
  unfold match_at; intros H.
  apply rmatch_advances in H as (c' & R & L & H).
  destruct (ma && (pos c' =? pos c)%nat); [discriminate|].
  inversion H; subst c'. exact L.
Qed.

Lemma search_from_advances r s :
  forall p pv ma st e,
    search_from r p pv s ma = Some (st, e) ->
    (st + min_len r <= pos e)%nat.
Proof.
  induction s as [|a t IH]; intros p pv ma st e H; simpl in H.
  - destruct (match_at r _ ma) as [e'|] eqn:E; [|discriminate].
    inversion H; subst st e'. apply match_at_advances in E. exact E.
  - destruct (match_at r _ ma) as [e'|] eqn:E.
    + inversion H; subst st e'. apply match_at_advances in E. exact E.
    + eapply IH; exact H.
Qed.

Lemma scan_spans r (n : nat) :
  forall fuel c ma,
    (pos c + length (rest c) = n)%nat ->
    Forall (fun m => (fst m + min_len r <= snd m)%nat /\ (snd m <= n)%nat)
           (scan r fuel c ma).
Proof.
  induction fuel as [|f IH]; intros c ma Hc; simpl; [constructor|].
  destruct (search r c ma) as [[st e]|] eqn:E; [|constructor].
  unfold search in E.
  pose proof (search_from_advances _ _ _ _ _ _ _ E) as Hl.
  apply search_from_forward in E as (H1 & H2 & _).
  constructor.
  - simpl. lia.
  - apply IH. lia.
Qed.

(** Every span of [finditer] is at least as long as the pattern demands and
    ends inside the text. *)
Lemma finditer_spans (r : regex) (s : str) :
  Forall (fun m => (fst m + min_len r <= snd m)%nat
                   /\ (snd m <= length s)%nat)
         (finditer r s).
Proof. apply scan_spans. reflexivity. Qed.

Lemma slice_length (s : str) (a b : nat) :
  (a <= b)%nat -> (b <= length s)%nat -> length (slice s a b) = (b - a)%nat.
Proof.
  intros Hab Hb. unfold slice. rewrite length_firstn, length_skipn. lia.
Qed.

Lemma slice_block (s : str) (a b : nat) :
  (a <= b)%nat -> s = firstn a s ++ slice s a b ++ skipn b s.
Proof.
  intros Hab. unfold slice.
  replace (skipn b s) with (skipn (b - a) (skipn a s))
    by (rewrite skipn_skipn; f_equal; lia).
  rewrite (firstn_skipn (b - a) (skipn a s)).
  symmetry; apply firstn_skipn.
Qed.

Lemma count_nl_app (a b : str) : count_nl (a ++ b) = (count_nl a + count_nl b)%nat.
Proof. unfold count_nl. rewrite filter_app, length_app. reflexivity. Qed.

Lemma count_nl_firstn_le (s : str) (k : nat) :
  (count_nl (firstn k s) <= count_nl s)%nat.
Proof.
  rewrite <- (firstn_skipn k s) at 2. rewrite count_nl_app. lia.
Qed.

Lemma split_nl_length (s : str) :
  length (split_nl s) = S (count_nl s).
Proof.
  unfold split_nl, count_nl.
  induction s as [|c t IH]; simpl; [reflexivity|].
  destruct (is_nl c); simpl; [rewrite IH; reflexivity|].
  destruct (split_by is_nl t); simpl in *; [discriminate IH | exact IH].
Qed.

Lemma line_of_bounds (s : str) (m : nat * nat) :
  1 <= line_of s m <= len (split_nl s).
Proof.
  unfold line_of, len. rewrite split_nl_length.
  pose proof (count_nl_firstn_le s (fst m)). lia.
Qed.

(** ** Where the scanners locate their reports *)

Lemma total_lines_split radon (content : str) :
  total_lines (_calculate_code_metrics radon content)
  = len (split_nl content).
Proof.
  unfold _calculate_code_metrics.
  match goal with
  | |- context [add_radon_metrics radon content ?m0] =>
      destruct (add_radon_metrics_counts radon content m0) as (Ht & _)
  end.
  cbv zeta in Ht. rewrite Ht. reflexivity.
Qed.

(** X1. The line count of the metrics is the number of line breaks plus
    one, and every line number reported by the security scanner, the
    performance scanner and the pattern detector lies between 1 and that
    line count. *)
Theorem reported_lines_within_text :
  forall (radon : option radon_api) (content : str),
    let n := total_lines (_calculate_code_metrics radon content) in
    n = Z.of_nat (count_nl content) + 1
    /\ Forall (fun v => 1 <= v_line_number v <= n)
              (_scan_security_vulnerabilities content)
    /\ Forall (fun p => 1 <= p_line_number p <= n)
              (_analyze_performance_patterns content)
    /\ Forall (fun p => 1 <= pm_line_number p <= n)
              (_detect_code_patterns content).
Proof.
  intros radon content n. unfold n. rewrite total_lines_split.
  split; [unfold len; rewrite split_nl_length; lia|].
  split; [|split]; apply Forall_forall; intros x Hx.
  - unfold _scan_security_vulnerabilities in Hx.
    rewrite in_flat_map in Hx. destruct Hx as (r & _ & Hx).
    rewrite in_map_iff in Hx. destruct Hx as (m & <- & _).
    apply line_of_bounds.
  - unfold _analyze_performance_patterns in Hx.
    rewrite in_flat_map in Hx. destruct Hx as (r & _ & Hx).
    rewrite in_map_iff in Hx. destruct Hx as (m & <- & _).
    apply line_of_bounds.
  - unfold _detect_code_patterns in Hx.
    rewrite in_flat_map in Hx. destruct Hx as (r & _ & Hx).
    rewrite in_map_iff in Hx. destruct Hx as (m & <- & _).
    apply line_of_bounds.
Qed.

Lemma vulnerability_patterns_min_len (r : rule) :
  In r vulnerability_patterns -> (9 <= min_len (rule_pattern r))%nat.
Proof.
  unfold vulnerability_patterns, _load_vulnerability_patterns.
  intros [<-|[<-|[<-|[<-|[]]]]]; vm_compute; lia.
Qed.

(** X2. Every security issue quotes a contiguous block of the scanned text,
    at least 9 characters long, and its line number is one plus the number
    of line breaks before that block. *)
Theorem security_issue_quotes_the_text :
  forall content : str,
    Forall (fun v =>
              exists pre post,
                content = pre ++ v_matched_code v ++ post
                /\ (9 <= length (v_matched_code v))%nat
                /\ v_line_number v = Z.of_nat (count_nl pre) + 1)
           (_scan_security_vulnerabilities content).
Proof.
  intros content. apply Forall_forall. intros v Hv.
  unfold _scan_security_vulnerabilities in Hv.
  rewrite in_flat_map in Hv. destruct Hv as (r & Hr & Hv).
  rewrite in_map_iff in Hv. destruct Hv as (m & <- & Hm).
  pose proof (finditer_spans (rule_pattern r) content) as Hs.
  rewrite Forall_forall in Hs. destruct (Hs m Hm) as [H1 H2].
  pose proof (vulnerability_patterns_min_len r Hr) as H9.
  unfold vulnerability_of. cbn [v_matched_code v_line_number].
  unfold group, line_of.
  exists (firstn (fst m) content), (skipn (snd m) content).
  split; [apply slice_block; lia|].
  split; [rewrite slice_length; lia | reflexivity].
Qed.

Lemma performance_issue_shape (content : str) (p : performance_issue) :
  In p (_analyze_performance_patterns content) ->
  exists r m,
    In r performance_patterns /\ p = performance_issue_of content r m.
Proof.
  unfold _analyze_performance_patterns. rewrite in_flat_map.
  intros (r & Hr & Hp). rewrite in_map_iff in Hp.
  destruct Hp as (m & <- & _). exists r, m. auto.
Qed.

(** X3. Every performance issue has severity MEDIUM or LOW, never HIGH, and
    carries the suggestion written for its rule, never the fallback text. *)
Theorem performance_issue_severity_and_suggestion :
  forall content : str,
    Forall (fun p =>
              (p_severity p = "MEDIUM"%string \/ p_severity p = "LOW"%string)
              /\ p_severity p <> "HIGH"%string
              /\ p_suggestion p = _get_performance_suggestion (p_name p)
              /\ p_suggestion p
                 <> "Review for potential optimization"%string)
           (_analyze_performance_patterns content).
Proof.
  intros content. apply Forall_forall. intros p Hp.
  apply performance_issue_shape in Hp. destruct Hp as (r & m & Hr & ->).
  unfold performance_patterns, _load_performance_patterns in Hr.
  destruct Hr as [<-|[<-|[<-|[]]]]; cbn;
    (split; [auto|]); (split; [discriminate|]);
    (split; [reflexivity | discriminate]).
Qed.

(** X4. No project ever gets the performance recommendation: the count of
    critical performance issues is always 0, no recommendation has the
    category Performance, and the list has between two and four entries. *)
Theorem performance_recommendation_never_emitted :
  forall files : project_data,
    pa_critical_issues (_analyze_project_performance files) = 0
    /\ ~ In "Performance"%string
            (map rec_category (_generate_project_recommendations files))
    /\ (2 <= length (_generate_project_recommendations files) <= 4)%nat.
Proof.
  intros files.
  assert (Hc : pa_critical_issues (_analyze_project_performance files) = 0).
  { unfold _analyze_project_performance.
    rewrite collect_performance_issues_order.
    cbn [pa_critical_issues]. apply critical_count_zero. }
  split; [exact Hc|].
  rewrite _generate_project_recommendations_rules, critical_count_zero.
  split.
  - rewrite rule_categories. change (0 <? 0) with false.
    destruct (0 <? _); destruct (10000 <=? _); simpl; intuition discriminate.
  - unfold recommendation_rules. change (0 <? 0) with false.
    destruct (0 <? _); destruct (10000 <=? _); simpl; lia.
Qed.

(** ** The project assessments *)

Lemma vulnerability_severity_known (content : str) (v : vulnerability) :
  In v (_scan_security_vulnerabilities content) ->
  v_severity v = "HIGH"%string \/ v_severity v = "MEDIUM"%string
  \/ v_severity v = "LOW"%string.
Proof.
  unfold _scan_security_vulnerabilities. rewrite in_flat_map.
  intros (r & Hr & Hv). rewrite in_map_iff in Hv.
  destruct Hv as (m & <- & _).
  unfold vulnerability_patterns, _load_vulnerability_patterns in Hr.
  destruct Hr as [<-|[<-|[<-|[<-|[]]]]]; cbn; auto.
Qed.

Lemma in_firstn_in {A : Type} (x : A) (l : list A) :
  forall n, In x (firstn n l) -> In x l.
Proof.
  induction l as [|y l IH]; intros [|n]; simpl; try tauto.
  intros [H|H]; [left; exact H | right; exact (IH n H)].
Qed.

(** Where an issue of the project list comes from. *)
Lemma discovered_issue_origin (files : project_data) (v : vulnerability) :
  In v (security_issues_in_discovery_order files) ->
  exists f v0,
    In f files /\ content_of f <> []
    /\ In v0 (_scan_security_vulnerabilities (content_of f))
    /\ v = v_set_file (get_or (fi_name f) (s2l "unknown")) v0.
Proof.
  unfold security_issues_in_discovery_order. rewrite in_flat_map.
  intros (f & Hf & Hv).
  destruct (content_of f) as [|c t] eqn:E; [contradiction|].
  cbn [truthy] in Hv. rewrite in_map_iff in Hv.
  destruct Hv as (v0 & <- & Hv0).
  exists f, v0. rewrite E. repeat split; auto. discriminate.
Qed.

Lemma severity_counts_add_up (issues : list vulnerability) :
  Forall (fun v => v_severity v = "HIGH"%string
                   \/ v_severity v = "MEDIUM"%string
                   \/ v_severity v = "LOW"%string) issues ->
  len issues
  = severity_count "HIGH" issues + severity_count "MEDIUM" issues
    + severity_count "LOW" issues.
Proof.
  intros H. unfold severity_count, len.
  assert (Hn : length issues
               = (length (filter (fun i => String.eqb (v_severity i) "HIGH")
                                 issues)
                  + length (filter (fun i => String.eqb (v_severity i)
                                                        "MEDIUM") issues)
                  + length (filter (fun i => String.eqb (v_severity i) "LOW")
                                   issues))%nat).
  { induction H as [|v l Hv Hl IH]; simpl; [reflexivity|].
    destruct Hv as [E|[E|E]]; rewrite E; simpl; lia. }
  lia.
Qed.

(** X5. In every security assessment the total is the sum of the HIGH,
    MEDIUM and LOW counts, the score lies between 0 and 100 and is 100
    exactly when no issue was found, at most five top issues are kept, and
    each of them names a file of the input with non-empty content in which
    the scanner found it. *)
Theorem security_assessment_invariants :
  forall files : project_data,
    let a := _assess_project_security files in
    sa_total_issues a
    = sa_high_severity_issues a + sa_medium_severity_issues a
      + sa_low_severity_issues a
    /\ 0 <= sa_security_score a <= 100
    /\ (sa_security_score a = 100 <-> sa_total_issues a = 0)
    /\ (length (sa_top_issues a) <= 5)%nat
    /\ Forall (fun v =>
                 exists f v0,
                   In f files /\ content_of f <> []
                   /\ In v0 (_scan_security_vulnerabilities (content_of f))
                   /\ v = v_set_file (get_or (fi_name f) (s2l "unknown")) v0)
              (sa_top_issues a).
Proof.
  intros files a. unfold a, _assess_project_security.
  rewrite collect_security_issues_order.
  set (issues := security_issues_in_discovery_order files).
  cbv zeta.
  cbn [sa_total_issues sa_high_severity_issues sa_medium_severity_issues
       sa_low_severity_issues sa_security_score sa_top_issues].
  unfold severity_is.
  fold (severity_count "HIGH" issues). fold (severity_count "MEDIUM" issues).
  fold (severity_count "LOW" issues).
  assert (Hk : Forall (fun v => v_severity v = "HIGH"%string
                                \/ v_severity v = "MEDIUM"%string
                                \/ v_severity v = "LOW"%string) issues).
  { apply Forall_forall. intros v Hv.
    apply discovered_issue_origin in Hv.
    destruct Hv as (f & v0 & _ & _ & Hv0 & ->).
    exact (vulnerability_severity_known _ _ Hv0). }
  pose proof (severity_counts_add_up issues Hk) as Hsum.
  assert (Hh : 0 <= severity_count "HIGH" issues) by apply len_nonneg.
  assert (Hm : 0 <= severity_count "MEDIUM" issues) by apply len_nonneg.
  assert (Hl : 0 <= severity_count "LOW" issues) by apply len_nonneg.
  split; [exact Hsum|]. split; [lia|]. split; [lia|].
  split; [apply firstn_le_length|].
  apply Forall_forall. intros v Hv.
  apply discovered_issue_origin. eapply in_firstn_in; exact Hv.
Qed.

(** X6. In every performance analysis the total is the number of issues
    discovered, the score is [max(0, 100 - 10 * total)], lies between 0 and
    100 and is 0 from ten issues on, and the top issues are the first five
    in the order of discovery. *)
Theorem performance_analysis_score_and_top :
  forall files : project_data,
    let a := _analyze_project_performance files in
    let issues := performance_issues_in_discovery_order files in
    pa_total_performance_issues a = len issues
    /\ pa_performance_score a
       = Z.max 0 (100 - pa_total_performance_issues a * 10)
    /\ 0 <= pa_performance_score a <= 100
    /\ (pa_performance_score a = 0 <-> 10 <= pa_total_performance_issues a)
    /\ pa_top_issues a = firstn 5 issues.
Proof.
  intros files a issues. unfold a, _analyze_project_performance.
  rewrite collect_performance_issues_order. fold issues.
  cbn [pa_total_performance_issues pa_performance_score pa_top_issues].
  pose proof (len_nonneg issues).
  repeat split; try reflexivity; lia.
Qed.

(** ** The summaries agree with each other *)

Lemma len_security_issues_in_order (files : project_data) :
  len (security_issues_in_discovery_order files)
  = security_issue_count files.
Proof.
  unfold security_issue_count, security_issues_in_discovery_order.
  induction files as [|f files IH]; [reflexivity|].
  rewrite sum_over_cons. cbn [flat_map].
  unfold len in *. rewrite length_app, Nat2Z.inj_add, IH.
  destruct (truthy (content_of f)); [rewrite length_map|]; reflexivity.
Qed.

Lemma len_performance_issues_in_order (files : project_data) :
  len (performance_issues_in_discovery_order files)
  = performance_issue_count files.
Proof.
  unfold performance_issue_count, performance_issues_in_discovery_order.
  induction files as [|f files IH]; [reflexivity|].
  rewrite sum_over_cons. cbn [flat_map].
  unfold len in *. rewrite length_app, Nat2Z.inj_add, IH.
  destruct (truthy (content_of f)); [rewrite length_map|]; reflexivity.
Qed.

Lemma analyzed_files_bounds (files : project_data) :
  0 <= len (analyzed_files files) <= len files.
Proof.
  unfold analyzed_files, len.
  pose proof (filter_length_le (fun f => truthy (content_of f)) files). lia.
Qed.

(** What [_summarize_code_quality] reports in its totals. *)
Lemma _summarize_code_quality_totals radon (files : project_data) :
  let q := _summarize_code_quality radon files in
  tm_security_issues_count (qs_totals q) = security_issue_count files
  /\ tm_performance_issues_count (qs_totals q)
     = performance_issue_count files
  /\ tm_technical_debt_score (qs_totals q) = debt_score_total files
  /\ qs_analyzed_files q = len (analyzed_files files)
  /\ tm_average_technical_debt (qs_totals q)
     = if len (analyzed_files files) >? 0
       then Some (true_div (debt_score_total files)
                           (len (analyzed_files files)))
       else None.
Proof.
  unfold _summarize_code_quality.
  pose proof (summarize_fold radon files (TotalMetrics 0 0 0 0 0 0 None) 0)
    as H.
  cbv zeta in H.
  destruct (fold_left (summarize_step radon) files _) as [tm n].
  cbn [fst snd tm_security_issues_count tm_performance_issues_count
       tm_technical_debt_score tm_average_technical_debt] in H.
  destruct H as (Hs & Hp & Hd & Ha & Hn). rewrite Z.add_0_l in *.
  cbv zeta. cbn [qs_totals qs_analyzed_files].
  rewrite <- Hn.
  destruct (n >? 0);
    cbn [tm_security_issues_count tm_performance_issues_count
         tm_technical_debt_score tm_average_technical_debt];
    rewrite ?Hd; auto.
Qed.

Lemma maintainability_fold (files : project_data) :
  forall t n,
    fold_left maintainability_step files (t, n)
    = (t + debt_score_total files, n + len (analyzed_files files)).
Proof.
  unfold debt_score_total.
  induction files as [|f files IH]; intros t n.
  - simpl. unfold sum_over, analyzed_files, len. simpl. f_equal; lia.
  - cbn [fold_left]. rewrite sum_over_cons, analyzed_files_cons.
    unfold maintainability_step at 2.
    destruct (truthy (content_of f)); rewrite IH; f_equal; lia.
Qed.

(** X7. The quality summary counts the same issues as the two assessments:
    its security count is the total of the security assessment, its
    performance count the total of the performance analysis, and its number
    of analysed files the one of the maintainability score; that number is
    at most the number of files, and the average debt is absent exactly when
    it is 0. *)
Theorem quality_summary_agrees_with_assessments :
  forall (radon : option radon_api) (files : project_data),
    let q := _summarize_code_quality radon files in
    tm_security_issues_count (qs_totals q)
    = sa_total_issues (_assess_project_security files)
    /\ tm_performance_issues_count (qs_totals q)
       = pa_total_performance_issues (_analyze_project_performance files)
    /\ qs_analyzed_files q
       = ms_files_analyzed (_calculate_maintainability_score files)
    /\ 0 <= qs_analyzed_files q <= len files
    /\ (tm_average_technical_debt (qs_totals q) = None
        <-> qs_analyzed_files q = 0).
Proof.
  intros radon files q.
  destruct (_summarize_code_quality_totals radon files)
    as (Hs & Hp & Hd & Hn & Ha).
  fold q in Hs, Hp, Hd, Hn, Ha.
  pose proof (analyzed_files_bounds files) as Hb.
  rewrite Hs, Hp, Hn, Ha.
  split; [|split; [|split; [|split]]].
  - unfold _assess_project_security.
    rewrite collect_security_issues_order. cbn [sa_total_issues].
    symmetry; apply len_security_issues_in_order.
  - unfold _analyze_project_performance.
    rewrite collect_performance_issues_order.
    cbn [pa_total_performance_issues].
    symmetry; apply len_performance_issues_in_order.
  - unfold _calculate_maintainability_score.
    rewrite maintainability_fold. cbn [ms_files_analyzed]. lia.
  - exact Hb.
  - destruct (len (analyzed_files files) >? 0) eqn:E;
      rewrite Z.gtb_ltb in E;
      [apply Z.ltb_lt in E | apply Z.ltb_ge in E];
      split; intros H; try discriminate; try reflexivity; lia.
Qed.

(** ** The maintainability score *)







(** ** The project overview *)

Lemma dict_incr_count (d : list (string * Z)) (k k' : string) :
  dict_count (dict_incr d k) k'
  = dict_count d k' + (if String.eqb k k' then 1 else 0).
Proof.
  induction d as [|[k0 n] d IH]; simpl.
  - destruct (String.eqb k k'); reflexivity.
  - destruct (String.eqb_spec k0 k) as [->|Hne]; simpl.
    + destruct (String.eqb k k'); lia.
    + rewrite IH. destruct (String.eqb_spec k0 k') as [->|Hne'].
      * destruct (String.eqb_spec k k'); [congruence | lia].
      * reflexivity.
Qed.

Lemma dict_incr_keys (d : list (string * Z)) (k k' : string) :
  In k' (map fst (dict_incr d k)) <-> k' = k \/ In k' (map fst d).
Proof.
  induction d as [|[k0 n] d IH]; simpl.
  - intuition.
  - destruct (String.eqb_spec k0 k) as [->|Hne]; simpl.
    + intuition.
    + rewrite IH. intuition.
Qed.

Lemma dict_incr_nodup (d : list (string * Z)) (k : string) :
  NoDup (map fst d) -> NoDup (map fst (dict_incr d k)).
Proof.
  induction d as [|[k0 n] d IH]; simpl; intros H.
  - constructor; [intros []|constructor].
  - inversion H as [|? ? Hnot Hd]; subst.
    destruct (String.eqb_spec k0 k) as [->|Hne]; simpl.
    + constructor; assumption.
    + constructor; [|apply IH; exact Hd].
      rewrite dict_incr_keys. intros [E|Hin]; [congruence | tauto].
Qed.

Lemma dict_incr_positive (d : list (string * Z)) (k : string) :
  Forall (fun kv => 1 <= snd kv) d ->
  Forall (fun kv => 1 <= snd kv) (dict_incr d k).
Proof.
  induction 1 as [|[k0 n] d Hn Hd IH]; simpl.
  - constructor; [simpl; lia | constructor].
  - destruct (String.eqb k0 k); constructor; simpl in *; auto; lia.
Qed.

Lemma dict_incr_not_nil (d : list (string * Z)) (k : string) :
  dict_incr d k <> [].
Proof.
  destruct d as [|[k0 n] d]; simpl; [discriminate|].
  destruct (String.eqb k0 k); discriminate.
Qed.

(** The state of the loop of [_analyze_project_overview] at its end. *)
Lemma overview_fold_counts (files : project_data) :
  forall (lc : list (string * Z)) (t : Z),
    let st := fold_left
                (fun '(language_count, total_lines) f =>
                   (dict_incr language_count (_detect_file_type (name_of f)),
                    total_lines + len (split_nl (content_of f))))
                files (lc, t) in
    (forall lang, dict_count (fst st) lang
                  = dict_count lc lang + files_of_language lang files)
    /\ (NoDup (map fst lc) -> NoDup (map fst (fst st)))
    /\ (Forall (fun kv => 1 <= snd kv) lc ->
        Forall (fun kv => 1 <= snd kv) (fst st))
    /\ (files <> [] -> fst st <> [])
    /\ (files = [] -> fst st = lc).
Proof.
  unfold files_of_language.
  induction files as [|f files IH]; intros lc t; cbv zeta.
  - simpl. repeat split; auto; try tauto. intros lang. unfold len; simpl; lia.
  - cbn [fold_left].
    destruct (IH (dict_incr lc (_detect_file_type (name_of f)))
                 (t + len (split_nl (content_of f))))
      as (H1 & H2 & H3 & H4 & H5).
    cbv zeta in *.
    split; [|split; [|split; [|split]]].
    + intros lang. rewrite H1, dict_incr_count. cbn [filter].
      destruct (String.eqb (_detect_file_type (name_of f)) lang);
        unfold len; simpl length; lia.
    + intros Hnd. apply H2, dict_incr_nodup, Hnd.
    + intros Hp. apply H3, dict_incr_positive, Hp.
    + intros _. destruct files as [|g files'].
      * rewrite H5 by reflexivity. apply dict_incr_not_nil.
      * apply H4. discriminate.
    + discriminate.
Qed.

Lemma total_line_count_ge (files : project_data) :
  len files <= total_line_count files.
Proof.
  unfold total_line_count, len.
  induction files as [|f files IH]; cbn [fold_right length]; [lia|].
  pose proof (split_by_nonempty is_nl (content_of f)).
  unfold split_nl in *. rewrite Nat2Z.inj_succ. lia.
Qed.

(** X9. The overview counts every file once: the number of files is the
    length of the input, the language distribution has each language once,
    with the number of files of that language, never less than 1, the file
    types are its keys, and the total number of lines, to which every file
    adds at least one, is never below the number of files. *)
Theorem overview_language_distribution :
  forall files : project_data,
    let o := _analyze_project_overview files in
    total_files o = len files
    /\ NoDup (map fst (language_distribution o))
    /\ file_types o = map fst (language_distribution o)
    /\ (forall lang,
          dict_count (language_distribution o) lang
          = files_of_language lang files)
    /\ Forall (fun kv => 1 <= snd kv) (language_distribution o)
    /\ total_lines_of_code o = total_line_count files
    /\ total_files o <= total_lines_of_code o.
Proof.
  intros files o. unfold o, _analyze_project_overview.
  pose proof (overview_fold_counts files [] 0) as H.
  pose proof (overview_fold_total files [] 0) as Ht.
  cbv zeta in H.
  destruct (fold_left _ files ([], 0)) as [lc t].
  cbn [fst snd] in *. destruct H as (H1 & H2 & H3 & _ & _).
  cbn [total_files language_distribution file_types total_lines_of_code].
  rewrite Ht, Z.add_0_l.
  split; [reflexivity|]. split; [apply H2; constructor|].
  split; [reflexivity|]. split; [intros lang; rewrite H1; reflexivity|].
  split; [apply H3; constructor|]. split; [reflexivity|].
  apply total_line_count_ge.
Qed.

Lemma argmax_fold (rest : list (string * Z)) :
  forall (pre : list (string * Z)) (best : string * Z)
         (mid : list (string * Z)),
    Forall (fun kv => snd kv < snd best) pre ->
    Forall (fun kv => snd kv <= snd best) mid ->
    let r := fold_left (fun best kv' =>
                          if snd kv' >? snd best then kv' else best)
                       rest best in
    exists pre' post',
      pre ++ best :: mid ++ rest = pre' ++ r :: post'
      /\ Forall (fun kv => snd kv < snd r) pre'
      /\ Forall (fun kv => snd kv <= snd r) post'.
Proof.
  induction rest as [|x rest IH]; intros pre best mid Hpre Hmid; cbv zeta.
  - exists pre, mid. rewrite app_nil_r. auto.
  - cbn [fold_left].
    destruct (snd x >? snd best) eqn:E; rewrite Z.gtb_ltb in E;
      [apply Z.ltb_lt in E | apply Z.ltb_ge in E].
    + destruct (IH (pre ++ best :: mid) x []) as (pre' & post' & H1 & H2 & H3).
      * apply Forall_app; split.
        -- eapply Forall_impl; [|exact Hpre]. intros kv H; simpl in H; lia.
        -- constructor; [exact E|].
           eapply Forall_impl; [|exact Hmid]. intros kv H; simpl in H; lia.
      * constructor.
      * exists pre', post'. cbv zeta in H1. rewrite <- H1.
        split; [|auto]. rewrite <- app_assoc. reflexivity.
    + destruct (IH pre best (mid ++ [x])) as (pre' & post' & H1 & H2 & H3).
      * exact Hpre.
      * apply Forall_app; split; [exact Hmid|]. constructor; [exact E|constructor].
      * exists pre', post'. cbv zeta in H1. rewrite <- H1.
        split; [|auto]. rewrite <- app_assoc. reflexivity.
Qed.

(** X10. The primary language of the overview is Unknown for a project
    without files; otherwise it is a language of the distribution whose
    count is the largest, and among the languages with the largest count
    the one that was seen first. *)
Theorem overview_primary_language :
  forall files : project_data,
    let o := _analyze_project_overview files in
    (files = [] /\ language_distribution o = []
     /\ primary_language o = "Unknown"%string)
    \/ (files <> []
        /\ exists pre c post,
             language_distribution o
             = pre ++ (primary_language o, c) :: post
             /\ Forall (fun kv => snd kv < c) pre
             /\ Forall (fun kv => snd kv <= c) post).
Proof.
  intros files o. unfold o, _analyze_project_overview.
  pose proof (overview_fold_counts files [] 0) as H.
  cbv zeta in H.
  destruct (fold_left _ files ([], 0)) as [lc t].
  cbn [fst snd] in *. destruct H as (_ & _ & _ & Hne & He).
  cbn [language_distribution primary_language].
  destruct files as [|f files].
  - left. rewrite He by reflexivity. auto.
  - right. split; [discriminate|].
    destruct lc as [|kv lc]; [exfalso; apply Hne; [discriminate|reflexivity]|].
    cbn [dict_argmax].
    destruct (argmax_fold lc [] kv []) as (pre & post & H1 & H2 & H3);
      try constructor.
    cbv zeta in H1, H2, H3. cbn [app] in H1.
    exists pre, (snd (fold_left (fun best kv' =>
                                   if snd kv' >? snd best then kv' else best)
                                lc kv)), post.
    rewrite <- surjective_pairing. auto.
Qed.

(** ** File types *)

Lemma split_by_app_sep (sep : ascii -> bool) (c : ascii) (b : str) :
  sep c = true ->
  forall a, split_by sep (a ++ c :: b) = split_by sep a ++ split_by sep b.
Proof.
  intros Hc a; induction a as [|x a IH]; simpl.
  - rewrite Hc. reflexivity.
  - destruct (sep x); [rewrite IH; reflexivity|].
    rewrite IH. pose proof (split_by_nonempty sep a) as Hn.
    destruct (split_by sep a) as [|l ls]; [simpl in Hn; lia | reflexivity].
Qed.

Lemma last_app_nonempty {A : Type} (l1 l2 : list A) (d : A) :
  l2 <> [] -> last (l1 ++ l2) d = last l2 d.
Proof.
  intros H. induction l1 as [|x l1 IH]; [reflexivity|].
  simpl. rewrite IH. destruct (l1 ++ l2) eqn:E; [|reflexivity].
  apply app_eq_nil in E. tauto.
Qed.

Lemma basename_after_slash (dir rest : str) :
  basename (dir ++ s2l "/" ++ rest) = basename rest.
Proof.
  unfold basename. simpl app.
  rewrite split_by_app_sep by reflexivity.
  apply last_app_nonempty.
  pose proof (split_by_nonempty is_slash rest) as Hn.
  destruct (split_by is_slash rest); [simpl in Hn; lia | discriminate].
Qed.

Lemma lower_char_facts (c : ascii) :
  lower_char (lower_char c) = lower_char c
  /\ is_slash (lower_char c) = is_slash c
  /\ is_dot (lower_char c) = is_dot c.
Proof.
  destruct c as [[] [] [] [] [] [] [] []]; vm_compute; auto.
Qed.

Lemma split_by_map (sep : ascii -> bool) (g : ascii -> ascii) :
  (forall c, sep (g c) = sep c) ->
  forall s, split_by sep (map g s) = map (map g) (split_by sep s).
Proof.
  intros Hg s; induction s as [|c s IH]; simpl; [reflexivity|].
  rewrite Hg, IH. destruct (sep c); [reflexivity|].
  destruct (split_by sep s); reflexivity.
Qed.

Lemma last_map {A B : Type} (g : A -> B) (l : list A) (d : A) :
  last (map g l) (g d) = g (last l d).
Proof.
  induction l as [|x l IH]; [reflexivity|].
  simpl. rewrite IH. destruct l; reflexivity.
Qed.

Lemma existsb_truthy_map (g : ascii -> ascii) (l : list str) :
  existsb truthy (map (map g) l) = existsb truthy l.
Proof.
  induction l as [|x l IH]; simpl; [reflexivity|].
  rewrite IH. destruct x; reflexivity.
Qed.

Lemma pick_extension_map (g : ascii -> ascii) (pieces : list str) :
  match map (map g) pieces with
  | [] | [_] => []
  | e :: before => if existsb truthy before then ascii_of_nat 46 :: e else []
  end
  = match pieces with
    | [] | [_] => []
    | e :: before =>
        if existsb truthy before then ascii_of_nat 46 :: map g e else []
    end.
Proof.
  destruct pieces as [|e [|x before]]; try reflexivity.
  change (map (map g) (e :: x :: before))
    with (map g e :: map (map g) (x :: before)).
  change (map (map g) (x :: before))
    with (map g x :: map (map g) before) at 1.
  cbv iota beta.
  change (map g x :: map (map g) before) with (map (map g) (x :: before)).
  rewrite existsb_truthy_map. reflexivity.
Qed.

Lemma splitext_ext_lower (p : str) :
  splitext_ext (lower p) = lower (splitext_ext p).
Proof.
  unfold splitext_ext, basename, lower.
  rewrite (split_by_map is_slash lower_char)
    by (intros c; apply lower_char_facts).
  change (@nil ascii) with (map lower_char []) at 1.
  rewrite last_map.
  rewrite (split_by_map is_dot lower_char)
    by (intros c; apply lower_char_facts).
  rewrite <- map_rev.
  etransitivity; [apply pick_extension_map|].
  destruct (rev _) as [|e [|x before]]; try reflexivity.
  destruct (existsb truthy (x :: before)); [|reflexivity].
  reflexivity.
Qed.

Lemma lower_idempotent (s : str) : lower (lower s) = lower s.
Proof.
  unfold lower. rewrite map_map. apply map_ext.
  intros c; apply lower_char_facts.
Qed.

Lemma dict_get_in {V : Type} (d : list (string * V)) (key : str) (dflt : V) :
  dict_get d key dflt = dflt \/ In (dict_get d key dflt) (map snd d).
Proof.
  induction d as [|[k v] d IH]; simpl; [auto|].
  destruct (str_eqb (s2l k) key); [auto|]. destruct IH; auto.
Qed.

(** X11. The file type depends only on the extension of the last path
    component, compared without regard to letter case: directories in front
    of the name change nothing, lower-casing the path changes nothing, and
    the answer is Unknown or one of the languages of the table. *)
Theorem file_type_by_extension :
  forall dir rest path : str,
    _detect_file_type (dir ++ s2l "/" ++ rest) = _detect_file_type rest
    /\ _detect_file_type (lower path) = _detect_file_type path
    /\ (_detect_file_type path = "Unknown"%string
        \/ In (_detect_file_type path) (map snd type_mapping)).
Proof.
  intros dir rest path. unfold _detect_file_type.
  split; [|split].
  - unfold splitext_ext. rewrite basename_after_slash. reflexivity.
  - rewrite splitext_ext_lower, lower_idempotent. reflexivity.
  - apply dict_get_in.
Qed.

(** ** The debt indicators *)

Lemma fold_left_count {A : Type} (p : A -> bool) (l : list A) :
  forall a : Z,
    fold_left (fun acc x => if p x then acc + 1 else acc) l a
    = a + len (filter p l).
Proof.
  unfold len. induction l as [|x l IH]; intros a; simpl; [lia|].
  rewrite IH. destruct (p x); simpl length; lia.
Qed.

Lemma fold_left_same {A B : Type} (f g : B -> A -> B) :
  (forall b x, f b x = g b x) ->
  forall l b, fold_left f l b = fold_left g l b.
Proof.
  intros H l; induction l as [|x l IH]; intros b; simpl; [reflexivity|].
  rewrite H. apply IH.
Qed.

Lemma length_lstrip (line : str) :
  length line = (leading_space line + length (lstrip line))%nat.
Proof.
  induction line as [|c t IH]; simpl; [reflexivity|].
  destruct (isspace c); simpl; lia.
Qed.

Lemma indent_level_deep (line : str) :
  ((len line - len (lstrip line)) / 4 >? 4)
  = (20 <=? leading_space line)%nat.
Proof.
  unfold len. rewrite (length_lstrip line) at 1.
  replace (Z.of_nat (leading_space line + length (lstrip line))
           - Z.of_nat (length (lstrip line)))
    with (Z.of_nat (leading_space line)) by lia.
  destruct (20 <=? leading_space line)%nat eqn:E.
  - apply Nat.leb_le in E. rewrite Z.gtb_ltb. apply Z.ltb_lt.
    assert (5 <= Z.of_nat (leading_space line) / 4)
      by (apply Z.div_le_lower_bound; lia).
    lia.
  - apply Nat.leb_gt in E. rewrite Z.gtb_ltb. apply Z.ltb_ge.
    assert (Z.of_nat (leading_space line) / 4 < 5)
      by (apply Z.div_lt_upper_bound; lia).
    lia.
Qed.

(** X12. The deep-nesting count is the number of lines that begin with at
    least 20 whitespace characters (an indent level above 4, at 4 characters
    a level); it is never more than the number of lines. *)
Theorem deep_nesting_counts_indented_lines :
  forall content : str,
    _count_deep_nesting content
    = len (filter (fun line => (20 <=? leading_space line)%nat)
                  (split_nl content))
    /\ 0 <= _count_deep_nesting content <= len (split_nl content).
Proof.
  intros content.
  assert (E : _count_deep_nesting content
              = len (filter (fun line => (20 <=? leading_space line)%nat)
                            (split_nl content))).
  { unfold _count_deep_nesting. cbv zeta.
    rewrite (fold_left_same
               (fun acc line =>
                  if (len line - len (lstrip line)) / 4 >? 4
                  then acc + 1 else acc)
               (fun acc line =>
                  if (20 <=? leading_space line)%nat then acc + 1 else acc))
      by (intros acc line; rewrite indent_level_deep; reflexivity).
    rewrite fold_left_count. reflexivity. }
  split; [exact E|]. rewrite E. unfold len.
  pose proof (filter_length_le (fun line => (20 <=? leading_space line)%nat)
                               (split_nl content)).
  lia.
Qed.

Lemma str_eqb_eq (a b : str) : str_eqb a b = true <-> a = b.
Proof.
  revert b; induction a as [|x a IH]; intros [|y b]; simpl;
    try (split; [discriminate | discriminate]); [tauto|].
  rewrite andb_true_iff, Ascii.eqb_eq, IH.
  split; [intros [-> ->]; reflexivity | intros H; inversion H; auto].
Qed.

Lemma list_count_nodup (l : list str) (x : str) :
  NoDup l -> list_count x l <= 1.
Proof.
  unfold list_count, len.
  induction 1 as [|y l Hnot Hnd IH]; simpl; [lia|].
  destruct (str_eqb x y) eqn:E; [|exact IH].
  apply str_eqb_eq in E; subst y.
  rewrite filter_none; [simpl; lia|].
  intros z Hz. destruct (str_eqb x z) eqn:Ez; [|reflexivity].
  apply str_eqb_eq in Ez; subst z. contradiction.
Qed.

Lemma _detect_code_duplication_filter (content : str) :
  _detect_code_duplication content
  = len (filter (fun line =>
                   (len line >? 20)
                   && (list_count line (stripped_lines content) >? 1))
                (stripped_lines content)) / 2.
Proof.
  unfold _detect_code_duplication. fold (stripped_lines content). cbv zeta.
  f_equal.
  rewrite (fold_left_same _
             (fun acc line =>
                if (len line >? 20)
                   && (list_count line (stripped_lines content) >? 1)
                then acc + 1 else acc)).
  - rewrite fold_left_count. reflexivity.
  - intros acc line. destruct (len line >? 20); reflexivity.
Qed.

(** X13. The duplication count is half, rounded down, of the number of
    stripped non-blank lines that are longer than 20 characters and occur
    more than once; twice the count never exceeds the number of non-blank
    lines, and a text whose stripped non-blank lines are all different has
    the count 0. *)
Theorem duplication_counts_repeated_lines :
  forall content : str,
    let lines := stripped_lines content in
    _detect_code_duplication content
    = len (filter (fun line =>
                     (len line >? 20) && (list_count line lines >? 1))
                  lines) / 2
    /\ 0 <= 2 * _detect_code_duplication content <= len lines
    /\ (NoDup lines -> _detect_code_duplication content = 0).
Proof.
  intros content lines.
  pose proof (_detect_code_duplication_filter content) as E. fold lines in E.
  split; [exact E|]. rewrite E.
  set (p := fun line => (len line >? 20) && (list_count line lines >? 1)).
  pose proof (filter_length_le p lines) as Hle.
  pose proof (len_nonneg (filter p lines)) as H0.
  split.
  - pose proof (Z.mul_div_le (len (filter p lines)) 2 ltac:(lia)).
    pose proof (Z.div_pos (len (filter p lines)) 2 H0 ltac:(lia)).
    assert (len (filter p lines) <= len lines)
      by (unfold len; apply Nat2Z.inj_le; exact Hle).
    generalize dependent (len (filter p lines)). intros; lia.
  - intros Hnd. rewrite filter_none; [reflexivity|].
    intros line _. unfold p.
    pose proof (list_count_nodup lines line Hnd) as H1.
    destruct (list_count line lines >? 1) eqn:E1;
      [rewrite Z.gtb_ltb in E1; apply Z.ltb_lt in E1; lia|].
    apply andb_false_r.
Qed.

(** Two different lines. *)
Lemma duplication_counts_repeated_lines_witness :
  let content := joinlines ["alpha"; "beta"]%string in
  NoDup (stripped_lines content)
  /\ _detect_code_duplication content = 0.
Proof.
  intros content.
  assert (Hnd : NoDup (stripped_lines content)).
  { vm_compute. repeat constructor; simpl; intuition discriminate. }
  split; [exact Hnd|].
  destruct (duplication_counts_repeated_lines content) as (_ & _ & H).
  exact (H Hnd).
Defined.

(** ** The optional providers *)

(** X14. A complexity scan that raises is swallowed: the metrics and the
    complexity analysis are then exactly what they are without Radon. *)
Theorem radon_failure_is_swallowed :
  forall (api : radon_api) (content e : str),
    cc_visit api content = Raise e ->
    _calculate_code_metrics (Some api) content
    = _calculate_code_metrics None content
    /\ _analyze_complexity (Some api) content
       = _analyze_complexity None content.
Proof.
  intros api content e H.
  unfold _calculate_code_metrics, add_radon_metrics, _analyze_complexity.
  rewrite H. split; reflexivity.
Qed.

Lemma radon_failure_is_swallowed_witness :
  cc_visit failing_radon (s2l "x = 1") = Raise (s2l "boom")
  /\ average_complexity
       (_calculate_code_metrics (Some failing_radon) (s2l "x = 1")) = None.
Proof.
  assert (H : cc_visit failing_radon (s2l "x = 1") = Raise (s2l "boom"))
    by reflexivity.
  split; [exact H|].
  rewrite (proj1 (radon_failure_is_swallowed _ _ _ H)). reflexivity.
Defined.

(** X15. Whatever the provider answers, the seven counts of the metrics are
    those computed without it; the average and the maximal complexity are
    present together or absent together, and a maintainability index that is
    present is not 0. *)
Theorem metrics_counts_independent_of_radon :
  forall (radon : option radon_api) (content : str),
    let m := _calculate_code_metrics radon content in
    let m0 := _calculate_code_metrics None content in
    total_lines m = total_lines m0 /\ code_lines m = code_lines m0
    /\ comment_lines m = comment_lines m0 /\ blank_lines m = blank_lines m0
    /\ functions_count m = functions_count m0
    /\ classes_count m = classes_count m0
    /\ imports_count m = imports_count m0
    /\ (average_complexity m = None <-> max_complexity m = None)
    /\ (forall q, maintainability_index m = Some q -> ~ (q == 0)%Q).
Proof.
  intros radon content m m0. unfold m, m0, _calculate_code_metrics.
  match goal with
  | |- context [add_radon_metrics radon content ?x] =>
      destruct (add_radon_metrics_counts radon content x)
        as (H1 & H2 & H3 & H4 & H5 & H6 & H7);
      set (base := x) in *
  end.
  cbv zeta in *.
  change (add_radon_metrics None content base) with base.
  do 7 (split; [assumption|]).
  unfold add_radon_metrics.
  destruct radon as [api|]; [|split; [tauto | discriminate]].
  destruct (cc_visit api content) as [[|r rs]|e];
    destruct (mi_visit api content) as [mi|e'];
    try destruct (Qeq_bool mi 0) eqn:E; cbn;
    (split; [split; intros H; try discriminate H; reflexivity|]);
    intros q Hq; try discriminate Hq;
    inversion Hq; subst q; intros Hz;
    apply Qeq_bool_iff in Hz; congruence.
Qed.

Lemma metrics_counts_independent_of_radon_witness :
  maintainability_index
    (_calculate_code_metrics (Some fixed_radon) (s2l "x")) = Some 1%Q
  /\ ~ (1 == 0)%Q.
Proof.
  assert (H : maintainability_index
                (_calculate_code_metrics (Some fixed_radon) (s2l "x"))
              = Some 1%Q) by reflexivity.
  split; [exact H|].
  destruct (metrics_counts_independent_of_radon (Some fixed_radon) (s2l "x"))
    as (_ & _ & _ & _ & _ & _ & _ & _ & Hq).
  exact (Hq 1%Q H).
Defined.

Lemma maxZ_upper (l : list Z) :
  forall x, x <= fold_left Z.max l x
            /\ Forall (fun y => y <= fold_left Z.max l x) l
            /\ In (fold_left Z.max l x) (x :: l).
Proof.
  induction l as [|y l IH]; intros x; simpl.
  - repeat split; [lia | constructor | auto].
  - destruct (IH (Z.max x y)) as (H1 & H2 & H3).
    split; [lia|]. split; [constructor; [lia | exact H2]|].
    destruct H3 as [H3|H3]; [|auto].
    rewrite <- H3. destruct (Z.max_spec x y) as [[_ ->]|[_ ->]]; auto.
Qed.

(** X16. When the complexity scan returns, the analysis counts every block
    it returned, lists exactly the blocks of complexity above 10, and its
    maximum is at least the complexity of every block and is the complexity
    of one of them when there is any. *)
Theorem complexity_analysis_of_results :
  forall (api : radon_api) (content : str) (results : list cc_result),
    cc_visit api content = Ok results ->
    let a := _analyze_complexity (Some api) content in
    ca_total_functions a = len results
    /\ (forall r, In r (ca_complex_functions a)
                  <-> In r results /\ 10 < cc_complexity r)
    /\ Forall (fun r => cc_complexity r <= ca_max_complexity a) results
    /\ (results <> [] ->
        In (ca_max_complexity a) (map cc_complexity results)).
Proof.
  intros api content results H a. unfold a, _analyze_complexity.
  rewrite H. destruct results as [|r rs].
  - cbn. repeat split; try tauto; try constructor.
  - cbv zeta.
    cbn [ca_total_functions ca_complex_functions ca_max_complexity].
    split; [reflexivity|]. split.
    + intros x. rewrite filter_In, Z.gtb_ltb, Z.ltb_lt. tauto.
    + cbn [map maxZ].
      destruct (maxZ_upper (map cc_complexity rs) (cc_complexity r))
        as (H1 & H2 & H3).
      split; [|intros _; exact H3].
      constructor; [exact H1|]. rewrite Forall_map in H2. exact H2.
Qed.

Lemma complexity_analysis_of_results_witness :
  cc_visit fixed_radon (s2l "x") = Ok two_blocks
  /\ ca_total_functions (_analyze_complexity (Some fixed_radon) (s2l "x")) = 2.
Proof.
  assert (H : cc_visit fixed_radon (s2l "x") = Ok two_blocks) by reflexivity.
  split; [exact H|].
  destruct (complexity_analysis_of_results _ _ _ H) as (E & _).
  rewrite E. reflexivity.
Defined.

Lemma analysis_text_of_length (content : str) :
  (length (analysis_text_of content) <= 1003)%nat
  /\ ((length content <= 1000)%nat -> analysis_text_of content = content)
  /\ firstn 1000 (analysis_text_of content) = firstn 1000 content.
Proof.
  unfold analysis_text_of, len.
  destruct (Z.of_nat (length content) >? 1000) eqn:E;
    rewrite Z.gtb_ltb in E;
    [apply Z.ltb_lt in E | apply Z.ltb_ge in E].
  - split; [|split].
    + rewrite length_app, length_firstn.
      change (length (s2l "...")) with 3%nat. lia.
    + intros H; lia.
    + rewrite firstn_app, length_firstn.
      replace (1000 - Nat.min 1000 (length content))%nat with 0%nat by lia.
      rewrite firstn_firstn, firstn_O, app_nil_r. reflexivity.
  - split; [lia|]. split; reflexivity.
Qed.

(** X17. The insights have one of three shapes.  Without a pipeline the
    status is not_available.  Otherwise the pipeline is asked once, about
    the content cut to its first 1000 characters plus three dots when it is
    longer (at most 1003 characters): if it raises, the status is error,
    the message is kept and nothing else is filled in; if it answers, the
    status is analyzed, the answer is kept and four recommendations are
    given. *)
Theorem ai_insights_shapes :
  forall (pipeline : option (str -> result classification)) (content : str),
    let i := _generate_ai_insights pipeline content in
    let text := analysis_text_of content in
    (length text <= 1003)%nat
    /\ ((pipeline = None
         /\ i = AiInsights "not_available" "" [] "unknown" None None)
        \/ (exists p e,
               pipeline = Some p /\ p text = Raise e
               /\ i = AiInsights "error" "" [] "unknown" None (Some e))
        \/ (exists p res,
               pipeline = Some p /\ p text = Ok res
               /\ ai_status i = "analyzed"%string
               /\ ai_classification i = Some res
               /\ ai_error i = None
               /\ length (ai_recommendations i) = 4%nat
               /\ (ai_code_quality i = "complex"%string
                   \/ ai_code_quality i = "good"%string
                   \/ ai_code_quality i = "moderate"%string))).
Proof.
  intros pipeline content i text.
  split; [apply analysis_text_of_length|].
  unfold i, text, _generate_ai_insights, analysis_text_of. cbv zeta.
  destruct pipeline as [p|]; [|left; auto].
  right. destruct (p _) as [res|e] eqn:E.
  - right. exists p, res.
    cbn [ai_status ai_classification ai_error ai_recommendations
         ai_code_quality length].
    split; [reflexivity|]. split; [exact E|].
    do 4 (split; [reflexivity|]).
    destruct (len (split_nl content) >? 500); [auto|].
    destruct (findall_count test_re content >? 0); auto.
  - left. exists p, e. auto.
Qed.

(** ** The project analysis never raises *)


(** ** Growing a project *)

Lemma in_three_checks_mono (b1 b2 b3 c1 c2 c3 : bool) :
  (b1 = true -> c1 = true) -> (b2 = true -> c2 = true) ->
  (b3 = true -> c3 = true) ->
  incl ((if b1 then [mvc_entry] else [])
        ++ (if b2 then [microservices_entry] else [])
        ++ (if b3 then [repository_entry] else []))
       ((if c1 then [mvc_entry] else [])
        ++ (if c2 then [microservices_entry] else [])
        ++ (if c3 then [repository_entry] else [])).
Proof.
  intros H1 H2 H3 e He. apply in_three_checks in He. apply in_three_checks.
  destruct He as [[Hb ->]|[[Hb ->]|[Hb ->]]]; auto.
Qed.

Lemma existsb_app_l {A : Type} (p : A -> bool) (l l' : list A) :
  existsb p l = true -> existsb p (l ++ l') = true.
Proof. intros H. rewrite existsb_app, H. reflexivity. Qed.

(** X19. Architecture inference reports at most three patterns, each at most
    once, none for a project without files, and adding files to a project
    never removes a pattern. *)
Theorem architecture_patterns_grow_with_files :
  forall files more : project_data,
    incl (_detect_architecture_patterns files)
         (_detect_architecture_patterns (files ++ more))
    /\ (length (_detect_architecture_patterns files) <= 3)%nat
    /\ NoDup (_detect_architecture_patterns files)
    /\ _detect_architecture_patterns [] = [].
Proof.
  intros files more. split; [|split; [|split; [|reflexivity]]].
  - rewrite !_detect_architecture_patterns_checks. cbv zeta.
    rewrite map_app. apply in_three_checks_mono.
    + rewrite !andb_true_iff. intros ((H1 & H2) & H3).
      repeat split; apply existsb_app_l; assumption.
    + rewrite !andb_true_iff, !Z.gtb_ltb, !Z.ltb_lt.
      intros (H1 & H2). split; [apply existsb_app_l; exact H1|].
      rewrite filter_app. unfold len in *. rewrite length_app. lia.
    + apply existsb_app_l.
  - rewrite _detect_architecture_patterns_checks. cbv zeta.
    destruct (_ && _ && _); destruct (_ && (_ >? 2)); destruct (existsb _ _);
      simpl; lia.
  - rewrite _detect_architecture_patterns_checks. cbv zeta.
    destruct (_ && _ && _); destruct (_ && (_ >? 2)); destruct (existsb _ _);
      simpl; repeat constructor; simpl; intuition discriminate.
Qed.

Lemma security_issues_in_order_app (a b : project_data) :
  security_issues_in_discovery_order (a ++ b)
  = security_issues_in_discovery_order a
    ++ security_issues_in_discovery_order b.
Proof. unfold security_issues_in_discovery_order. apply flat_map_app. Qed.

Lemma severity_count_app (sev : string) (l l' : list vulnerability) :
  severity_count sev (l ++ l')
  = severity_count sev l + severity_count sev l'.
Proof.
  unfold severity_count, len. rewrite filter_app, length_app. lia.
Qed.

(** X20. Joining two projects adds their security findings: the issue counts
    of the joined project are the sums of the counts of the parts, its top
    issues are the first five of the issues of the first part followed by
    those of the second, and its score is not above the score of either
    part. *)
Theorem security_assessment_of_joined_projects :
  forall a b : project_data,
    let sa := _assess_project_security a in
    let sb := _assess_project_security b in
    let s := _assess_project_security (a ++ b) in
    sa_total_issues s = sa_total_issues sa + sa_total_issues sb
    /\ sa_high_severity_issues s
       = sa_high_severity_issues sa + sa_high_severity_issues sb
    /\ sa_medium_severity_issues s
       = sa_medium_severity_issues sa + sa_medium_severity_issues sb
    /\ sa_low_severity_issues s
       = sa_low_severity_issues sa + sa_low_severity_issues sb
    /\ sa_top_issues s
       = firstn 5 (security_issues_in_discovery_order a
                   ++ security_issues_in_discovery_order b)
    /\ sa_security_score s <= sa_security_score sa
    /\ sa_security_score s <= sa_security_score sb.
Proof.
  intros a b sa sb s. unfold sa, sb, s, _assess_project_security.
  rewrite !collect_security_issues_order, security_issues_in_order_app.
  set (ia := security_issues_in_discovery_order a).
  set (ib := security_issues_in_discovery_order b).
  cbv zeta.
  cbn [sa_total_issues sa_high_severity_issues sa_medium_severity_issues
       sa_low_severity_issues sa_security_score sa_top_issues].
  unfold severity_is.
  fold (severity_count "HIGH" (ia ++ ib)).
  fold (severity_count "MEDIUM" (ia ++ ib)).
  fold (severity_count "LOW" (ia ++ ib)).
  fold (severity_count "HIGH" ia). fold (severity_count "MEDIUM" ia).
  fold (severity_count "LOW" ia).
  fold (severity_count "HIGH" ib). fold (severity_count "MEDIUM" ib).
  fold (severity_count "LOW" ib).
  rewrite !severity_count_app.
  assert (H1 : 0 <= severity_count "HIGH" ia) by apply len_nonneg.
  assert (H2 : 0 <= severity_count "MEDIUM" ia) by apply len_nonneg.
  assert (H3 : 0 <= severity_count "LOW" ia) by apply len_nonneg.
  assert (H4 : 0 <= severity_count "HIGH" ib) by apply len_nonneg.
  assert (H5 : 0 <= severity_count "MEDIUM" ib) by apply len_nonneg.
  assert (H6 : 0 <= severity_count "LOW" ib) by apply len_nonneg.
  split; [unfold len; rewrite length_app; lia|].
  do 4 (split; [reflexivity|]).
  split; lia.
Qed.

(** ** The range of the quality score *)





(** ** Counts against the size of the text *)

Lemma sorted_spans_fit (m n : nat) (l : list (nat * nat)) :
  StronglySorted span_lt l ->
  forall lo,
    (lo <= n)%nat ->
    Forall (fun sp => (lo <= fst sp)%nat /\ (fst sp + m <= snd sp)%nat
                      /\ (snd sp <= n)%nat) l ->
    (lo + length l * m <= n)%nat.
Proof.
  induction 1 as [|sp l Hs IH Hsp]; intros lo Hlo Hf; simpl; [lia|].
  inversion Hf as [|? ? (H1 & H2 & H3) Hf']; subst.
  assert (Ht : (snd sp + length l * m <= n)%nat).
  { apply IH; [exact H3|].
    rewrite Forall_forall in *. intros x Hx.
    destruct (Hf' x Hx) as (_ & Hx2 & Hx3).
    destruct (Hsp x Hx) as (_ & Hx4 & _). auto. }
  lia.
Qed.

(** The matches of a pattern, each of its least length, fit side by side in
    the text. *)
Lemma findall_count_fits (r : regex) (s : str) :
  findall_count r s * Z.of_nat (min_len r) <= len s.
Proof.
  unfold findall_count, len.
  pose proof (finditer_sorted r s) as Hs.
  pose proof (finditer_spans r s) as Hf.
  assert (H : (0 + length (finditer r s) * min_len r <= length s)%nat).
  { apply sorted_spans_fit; [exact Hs | lia |].
    eapply Forall_impl; [|exact Hf]. intros sp [H1 H2]. lia. }
  rewrite <- Nat2Z.inj_mul. lia.
Qed.

(** X22. The counts found by pattern search are bounded by the size of the
    text, because matches do not overlap: five characters for each
    deferred-work marker, three for each magic number, 28 for each long
    function, six for each function, seven for each class and for each
    import. *)
Theorem search_counts_bounded_by_text :
  forall (radon : option radon_api) (content : str),
    let d := _calculate_technical_debt content in
    let m := _calculate_code_metrics radon content in
    5 * todo_comments d <= len content
    /\ 3 * magic_numbers d <= len content
    /\ 28 * long_functions d <= len content
    /\ 6 * functions_count m <= len content
    /\ 7 * classes_count m <= len content
    /\ 7 * imports_count m <= len content.
Proof.
  intros radon content d m.
  unfold m, _calculate_code_metrics.
  match goal with
  | |- context [add_radon_metrics radon content ?x] =>
      destruct (add_radon_metrics_counts radon content x)
        as (_ & _ & _ & _ & H5 & H6 & H7)
  end.
  cbv zeta in *. rewrite H5, H6, H7.
  unfold d, _calculate_technical_debt.
  cbn [todo_comments magic_numbers long_functions functions_count
       classes_count imports_count].
  pose proof (findall_count_fits todo_re content) as T1.
  pose proof (findall_count_fits magic_re content) as T2.
  pose proof (findall_count_fits (long_def false 20) content) as T3.
  pose proof (findall_count_fits def_re content) as T4.
  pose proof (findall_count_fits class_re content) as T5.
  pose proof (findall_count_fits import_re content) as T6.
  change (min_len todo_re) with 5%nat in T1.
  change (min_len magic_re) with 3%nat in T2.
  change (min_len (long_def false 20)) with 28%nat in T3.
  change (min_len def_re) with 6%nat in T4.
  change (min_len class_re) with 7%nat in T5.
  change (min_len import_re) with 7%nat in T6.
  repeat split; lia.
Qed.
